(** * Fake-news detector (RAG + TAO): a shallow embedding of the Python sources

    The development follows the layout of the repository:
    - [src/generator.py]      : [generate_explanation], [_parse_output],
                                [_correct_with_evidence];
    - [src/tao_optimizer.py]  : [optimize_generation], [continual_train];
    - [src/live_retriever.py] : [retrieve];
    - [src/rag_pipeline.py]   : [analyze].

    Modelling conventions.
    - Python [str] is [string], the UTF-8 encoding of the text.  [strip]
      drops every character of [str.isspace], also those that take two or
      three bytes; [startswith], [join] and the operator [in] work on the
      bytes, which is the same as on the characters; [lower] changes the
      ASCII letters only.
    - Python [float] is [Q]: arithmetic is exact, binary64 rounding, NaN and
      infinities are outside the model.
    - Python objects that flow through dictionaries are [pyval]; a [dict] with
      string keys is a [gmap string pyval].
    - Exceptions are values of [result]; code that talks to the outside
      (generation model, random module, clock, evidence sources) runs in the
      monad [M W] of state-and-exception over an abstract world [W].  The
      outside itself is given by type classes, one per collaborator.
    - [print] calls are not modelled. *)

From Stdlib Require Import ZArith QArith Qround Lia Lqa List Sorted Permutation.
From Stdlib Require Import Ascii.
From Stdlib Require String DecimalString.
From stdpp Require Import gmap strings list fin_maps.

Set Warnings "-register-all".

(* ================================================================== *)
(** ** Python strings *)
(* ================================================================== *)

Module PyStr.

(** Python strings are sequences of code points; here they are kept in their
    UTF-8 encoding, so a character takes one to four bytes.  [str.isspace]
    holds of 29 characters, all of which take at most three bytes. *)

(** White space in one byte: TAB, LF, VT, FF, CR, FS, GS, RS, US, SPACE. *)
Definition isspace (c : ascii) : bool :=
  let n := Ascii.N_of_ascii c in
  ((9 <=? n) && (n <=? 13) || (28 <=? n) && (n <=? 32))%N.

(** White space in two bytes: U+0085 (C2 85) and U+00A0 (C2 A0). *)
Definition isspace2 (c1 c2 : ascii) : bool :=
  let n1 := Ascii.N_of_ascii c1 in
  let n2 := Ascii.N_of_ascii c2 in
  ((n1 =? 194) && ((n2 =? 133) || (n2 =? 160)))%N.

(** White space in three bytes: U+1680 (E1 9A 80), U+2000 to U+200A
    (E2 80 80 to E2 80 8A), U+2028 and U+2029 (E2 80 A8, E2 80 A9),
    U+202F (E2 80 AF), U+205F (E2 81 9F) and U+3000 (E3 80 80). *)
Definition isspace3 (c1 c2 c3 : ascii) : bool :=
  let n1 := Ascii.N_of_ascii c1 in
  let n2 := Ascii.N_of_ascii c2 in
  let n3 := Ascii.N_of_ascii c3 in
  ((n1 =? 225) && (n2 =? 154) && (n3 =? 128)
   || (n1 =? 226) && (n2 =? 128)
      && ((128 <=? n3) && (n3 <=? 138)
          || (n3 =? 168) || (n3 =? 169) || (n3 =? 175))
   || (n1 =? 226) && (n2 =? 129) && (n3 =? 159)
   || (n1 =? 227) && (n2 =? 128) && (n3 =? 128))%N.

(** [s.lstrip()]: the white-space characters that [s] starts with are
    dropped, whatever their width. *)
Fixpoint lstrip (s : string) : string :=
  match s with
  | "" => ""
  | String c1 r1 =>
      if isspace c1 then lstrip r1
      else
        match r1 with
        | "" => s
        | String c2 r2 =>
            if isspace2 c1 c2 then lstrip r2
            else
              match r2 with
              | "" => s
              | String c3 r3 => if isspace3 c1 c2 c3 then lstrip r3 else s
              end
        end
  end.

(** [s.rstrip()]: the text is cut where the rest of it is white space only. *)
Fixpoint rstrip (s : string) : string :=
  if String.eqb (lstrip s) "" then ""
  else
    match s with
    | "" => ""
    | String c r => String c (rstrip r)
    end.

(** [s.strip()] *)
Definition strip (s : string) : string := rstrip (lstrip s).

(** A text of white-space characters only (the empty text is one). *)
Inductive blank : string -> Prop :=
| blank_nil : blank ""
| blank_1 c r : isspace c = true -> blank r -> blank (String c r)
| blank_2 c1 c2 r :
    isspace2 c1 c2 = true -> blank r -> blank (String c1 (String c2 r))
| blank_3 c1 c2 c3 r :
    isspace3 c1 c2 c3 = true -> blank r ->
    blank (String c1 (String c2 (String c3 r))).

Definition lower_char (c : ascii) : ascii :=
  let n := Ascii.N_of_ascii c in
  if ((65 <=? n) && (n <=? 90))%N then Ascii.ascii_of_N (n + 32) else c.

(** [s.lower()] *)
Fixpoint lower (s : string) : string :=
  match s with
  | "" => ""
  | String c r => String (lower_char c) (lower r)
  end.

(** [s.startswith(p)] *)
Definition startswith (p s : string) : bool := String.prefix p s.

(** [sub in s] *)
Fixpoint contains (sub s : string) : bool :=
  String.prefix sub s ||
  match s with
  | "" => false
  | String _ r => contains sub r
  end.

(** [sep.join(l)] *)
Fixpoint join (sep : string) (l : list string) : string :=
  match l with
  | [] => ""
  | [x] => x
  | x :: r => x +:+ sep +:+ join sep r
  end.

(** Truth value of a string: [bool(s)]. *)
Definition truthy (s : string) : bool := negb (String.eqb s "").

Definition nl : string := String (Ascii.ascii_of_N 10) "".
Definition dquote : string := String (Ascii.ascii_of_N 34) "".

End PyStr.

(* ================================================================== *)
(** ** Python values, exceptions, the effect monad *)
(* ================================================================== *)

Inductive pyval : Type :=
| PNone
| PBool (b : bool)
| PInt (z : Z)
| PFloat (q : Q)
| PStr (s : string)
| PList (l : list pyval)
| PDict (d : gmap string pyval).

Abbreviation dict := (gmap string pyval).

(** [d.get(k, default)] *)
Definition dict_get (d : dict) (k : string) (default : pyval) : pyval :=
  match d !! k with
  | Some v => v
  | None => default
  end.

(** An exception: its class name and its message ([str(e)]). *)
Record exn : Type := Exn { exn_class : string; exn_msg : string }.

Inductive result (A : Type) : Type :=
| Ok (a : A)
| Raise (e : exn).
Arguments Ok {A} a.
Arguments Raise {A} e.

Definition rbind {A B} (r : result A) (k : A -> result B) : result B :=
  match r with
  | Ok a => k a
  | Raise e => Raise e
  end.

(** [try: body  except Exception as e: handler e] *)
Definition try_except {A} (body : result A) (handler : exn -> A) : A :=
  match body with
  | Ok a => a
  | Raise e => handler e
  end.

(** State and exceptions over a world [W]; a raised exception keeps the
    world as it was when the exception left the callee. *)
Definition M (W A : Type) : Type := W -> result A * W.

Definition ret {W A} (a : A) : M W A := fun w => (Ok a, w).

Definition bind {W A B} (m : M W A) (k : A -> M W B) : M W B :=
  fun w =>
    match m w with
    | (Ok a, w') => k a w'
    | (Raise e, w') => (Raise e, w')
    end.

Definition lift {W A} (r : result A) : M W A := fun w => (r, w).

(** [try: m  except Exception as e: h e], inside the monad. *)
Definition catch {W A} (m : M W A) (h : exn -> M W A) : M W A :=
  fun w =>
    match m w with
    | (Ok a, w') => (Ok a, w')
    | (Raise e, w') => h e w'
    end.

Declare Scope py_scope.
Delimit Scope py_scope with py.
Notation "x <- m ;; k" := (bind m (fun x => k))
  (at level 100, m at next level, right associativity) : py_scope.
Notation "x <~ r ;; k" := (rbind r (fun x => k))
  (at level 100, r at next level, right associativity) : py_scope.

(** Numeric value of an object that Python compares as a number. *)
Definition num_of (v : pyval) : option Q :=
  match v with
  | PFloat q => Some q
  | PInt z => Some (inject_Z z)
  | PBool b => Some (if b then 1 else 0)%Q
  | _ => None
  end.

Definition Qltb (x y : Q) : bool := negb (Qle_bool y x).

Definition TypeError (msg : string) : exn := Exn "TypeError" msg.

(** [max(a, b)]: the first argument unless the second is strictly greater;
    ordering a number against [None], a string, a list or a dict raises. *)
Definition py_max (a b : pyval) : result pyval :=
  match num_of a, num_of b with
  | Some x, Some y => Ok (if Qltb x y then b else a)
  | _, _ => Raise (TypeError "'>' not supported between instances")
  end.

(** [max] on two floats. *)
Definition fmax (a b : Q) : Q := if Qltb a b then b else a.

Open Scope py_scope.

(* ================================================================== *)
(** ** src/generator.py *)
(* ================================================================== *)

(** Keyword arguments of [self.model.generate]. *)
Record generate_kwargs : Type := {
  kw_max_length : pyval;
  kw_temperature : pyval;
  kw_num_beams : pyval;
  kw_repetition_penalty : pyval
}.

(** The generation capability: tokenizer, [model.generate] under
    [torch.no_grad()], and [tokenizer.decode], as one call from a prompt
    to the decoded text.  It may raise. *)
Class GenerationModel (W : Type) : Type := {
  llm_generate : string -> generate_kwargs -> M W string
}.

(** The two library functions the parser relies on: [json.loads] and the
    conversion [float(s)] of a string. *)
Class PyLib : Type := {
  json_loads : string -> result pyval;
  float_of_str : string -> result Q
}.

(** A dictionary with the five keys of a parsed verdict, inserted in the
    order of the source's dict literals. *)
Definition verdict (label confidence explanation counterfactual reasoning : pyval)
  : dict :=
  <["reasoning" := reasoning]>
    (<["counterfactual" := counterfactual]>
       (<["explanation" := explanation]>
          (<["confidence" := confidence]>
             (<["label" := label]> ∅)))).

(** [bool(d)] for a dictionary. *)
Definition dict_truthy (d : dict) : bool := negb (Nat.eqb (size d) 0).

Definition default_params : dict :=
  <["repetition_penalty" := PFloat 1.2]>
    (<["num_beams" := PInt 4]>
       (<["temperature" := PFloat 0.7]>
          (<["max_length" := PInt 256]> ∅))).

Definition empty_claim_verdict : dict :=
  <["explanation" := PStr "Empty claim"]>
    (<["confidence" := PFloat 0.0]>
       (<["label" := PStr "Uncertain"]> ∅)).

Definition build_prompt (claim context : string) : string :=
  "You are a fact verification model." +:+ PyStr.nl +:+
  "Claim: " +:+ claim +:+ PyStr.nl +:+ PyStr.nl +:+
  "Evidence:" +:+ PyStr.nl +:+ context +:+ PyStr.nl +:+ PyStr.nl +:+
  "Decide whether the claim is True, Fake, or Uncertain based only on the evidence. " +:+
  "Then explain briefly why and give a counterfactual — what would make the claim true. " +:+
  "Respond ONLY in JSON format with keys: label, confidence, explanation, counterfactual.".

(** The terms of the first correction rule. *)
Definition contradiction_terms : list string :=
  ["anti-scientific"; "not true"; "false"; "hoax"; "conspiracy"; "debunked"].

(** The conditions of the [if]/[elif] chain of [_correct_with_evidence], on
    the lower-cased claim and the lower-cased joined evidence. *)
Definition cond_a (evidence_joined : string) : bool :=
  existsb (fun term => PyStr.contains term evidence_joined) contradiction_terms.
Definition cond_b (claim_lower evidence_joined : string) : bool :=
  PyStr.contains "scientific consensus" evidence_joined
  && PyStr.contains "flat" claim_lower.
Definition cond_c (evidence_joined : string) : bool :=
  PyStr.contains "confirm" evidence_joined || PyStr.contains "proves" evidence_joined.
Definition cond_d (evidence_joined : string) : bool :=
  PyStr.contains "no evidence" evidence_joined
  || PyStr.contains "unclear" evidence_joined.

Definition _correct_with_evidence
    (parsed : dict) (claim : string) (evidence_texts : list string) : result dict :=
  let claim_lower := PyStr.lower claim in
  let evidence_joined := PyStr.lower (PyStr.join " " evidence_texts) in
  if cond_a evidence_joined then
    let parsed := <["label" := PStr "Fake"]> parsed in
    c <~ py_max (dict_get parsed "confidence" (PFloat 0.7)) (PFloat 0.9) ;;
    let parsed := <["confidence" := c]> parsed in
    let parsed :=
      <["explanation" :=
          PStr "Evidence indicates the claim contradicts scientific consensus."]>
        parsed in
    let parsed :=
      <["counterfactual" :=
          PStr "If verified empirical data supported the claim, it could be true."]>
        parsed in
    Ok parsed
  else if cond_b claim_lower evidence_joined then
    let parsed := <["label" := PStr "Fake"]> parsed in
    let parsed := <["confidence" := PFloat 0.95]> parsed in
    let parsed :=
      <["explanation" :=
          PStr "Scientific consensus confirms Earth is spherical, not flat."]>
        parsed in
    let parsed :=
      <["counterfactual" :=
          PStr "If all scientific and satellite data were falsified, the claim might appear true."]>
        parsed in
    Ok parsed
  else if cond_c evidence_joined then
    let parsed := <["label" := PStr "True"]> parsed in
    let parsed := <["confidence" := PFloat 0.9]> parsed in
    Ok parsed
  else if cond_d evidence_joined then
    let parsed := <["label" := PStr "Uncertain"]> parsed in
    let parsed := <["confidence" := PFloat 0.6]> parsed in
    Ok parsed
  else Ok parsed.

Section Generator.
Context {W : Type} {GM : GenerationModel W} {PL : PyLib}.

(** [float(v)] *)
Definition py_float (v : pyval) : result Q :=
  match v with
  | PFloat q => Ok q
  | PInt z => Ok (inject_Z z)
  | PBool b => Ok (if b then 1 else 0)%Q
  | PStr s => float_of_str s
  | _ => Raise (TypeError "float() argument must be a string or a real number")
  end.

(** [data.get]: defined on a dictionary only. *)
Definition as_dict (v : pyval) : result dict :=
  match v with
  | PDict d => Ok d
  | _ => Raise (Exn "AttributeError" "object has no attribute 'get'")
  end.

Definition _parse_output (text : string) : dict :=
  try_except
    (if PyStr.startswith "{" (PyStr.strip text) then
       data <~ json_loads text ;;
       data <~ as_dict data ;;
       let label := dict_get data "label" (PStr "Uncertain") in
       confidence <~ py_float (dict_get data "confidence" (PFloat 0.6)) ;;
       Ok (verdict label (PFloat confidence)
             (dict_get data "explanation" (PStr ""))
             (dict_get data "counterfactual" (PStr ""))
             (dict_get data "reasoning" (PList [])))
     else
       let label :=
         if PyStr.contains "not true" (PyStr.lower text)
            || PyStr.contains "false" (PyStr.lower text)
         then "Fake"
         else if PyStr.contains "true" (PyStr.lower text) then "True"
              else "Uncertain" in
       Ok (verdict (PStr label)
             (PFloat (if negb (String.eqb label "Uncertain") then 0.8 else 0.5))
             (PStr (PyStr.strip text)) (PStr "") (PList [])))
    (fun e =>
       verdict (PStr "Uncertain") (PFloat 0.5)
         (PStr (PyStr.strip text)) (PStr "") (PList [])).

Definition generate_explanation
    (claim : string) (evidence_texts : list string)
    (decoding_params : option dict) : M W dict :=
  if negb (PyStr.truthy claim) then ret empty_claim_verdict
  else
    let context :=
      match evidence_texts with
      | [] => "No relevant evidence found."
      | _ => PyStr.join " " (firstn 5 evidence_texts)
      end in
    let prompt := build_prompt claim context in
    let params :=
      match decoding_params with
      | Some d => if dict_truthy d then d else default_params
      | None => default_params
      end in
    decoded <-
      llm_generate prompt
        {| kw_max_length := dict_get params "max_length" (PInt 256);
           kw_temperature := dict_get params "temperature" (PFloat 0.7);
           kw_num_beams := dict_get params "num_beams" (PInt 4);
           kw_repetition_penalty :=
             dict_get params "repetition_penalty" (PFloat 1.2) |} ;;
    let parsed := _parse_output decoded in
    lift (_correct_with_evidence parsed claim evidence_texts).

End Generator.

(** *** The correction pass as the specification words it

    Section 4.4, step 4 of the specification: an ordered table of rules,
    evaluated in priority order, first match wins, later rules not evaluated.
    This second definition is compared with [_correct_with_evidence] below. *)

Inductive rule : Type := RuleA | RuleB | RuleC | RuleD | RuleE.

Record correction_rule : Type := {
  rule_name : rule;
  (** on the lower-cased claim and the lower-cased joined evidence *)
  rule_applies : string -> string -> bool;
  rule_action : dict -> result dict
}.

Definition force (label confidence : pyval) (parsed : dict) : dict :=
  <["confidence" := confidence]> (<["label" := label]> parsed).

Definition force_with_texts
    (label confidence : pyval) (explanation counterfactual : string)
    (parsed : dict) : dict :=
  <["counterfactual" := PStr counterfactual]>
    (<["explanation" := PStr explanation]> (force label confidence parsed)).

Definition spec_rule_a : correction_rule :=
  {| rule_name := RuleA;
     rule_applies := fun _ evidence_joined => cond_a evidence_joined;
     rule_action := fun parsed =>
       c <~ py_max (dict_get (<["label" := PStr "Fake"]> parsed)
                      "confidence" (PFloat 0.7)) (PFloat 0.9) ;;
       Ok (force_with_texts (PStr "Fake") c
             "Evidence indicates the claim contradicts scientific consensus."
             "If verified empirical data supported the claim, it could be true."
             parsed) |}.

Definition spec_rule_b : correction_rule :=
  {| rule_name := RuleB;
     rule_applies := cond_b;
     rule_action := fun parsed =>
       Ok (force_with_texts (PStr "Fake") (PFloat 0.95)
             "Scientific consensus confirms Earth is spherical, not flat."
             "If all scientific and satellite data were falsified, the claim might appear true."
             parsed) |}.

Definition spec_rule_c : correction_rule :=
  {| rule_name := RuleC;
     rule_applies := fun _ evidence_joined => cond_c evidence_joined;
     rule_action := fun parsed => Ok (force (PStr "True") (PFloat 0.9) parsed) |}.

Definition spec_rule_d : correction_rule :=
  {| rule_name := RuleD;
     rule_applies := fun _ evidence_joined => cond_d evidence_joined;
     rule_action := fun parsed =>
       Ok (force (PStr "Uncertain") (PFloat 0.6) parsed) |}.

Definition correction_rules : list correction_rule :=
  [spec_rule_a; spec_rule_b; spec_rule_c; spec_rule_d].

(** First match wins; with no match (rule e) the verdict is left unchanged. *)
Fixpoint first_match
    (rules : list correction_rule) (claim_lower evidence_joined : string)
    (parsed : dict) : rule * result dict :=
  match rules with
  | [] => (RuleE, Ok parsed)
  | r :: rest =>
      if rule_applies r claim_lower evidence_joined
      then (rule_name r, rule_action r parsed)
      else first_match rest claim_lower evidence_joined parsed
  end.

Definition correction_by_priority
    (parsed : dict) (claim : string) (evidence_texts : list string)
  : rule * result dict :=
  first_match correction_rules
    (PyStr.lower claim) (PyStr.lower (PyStr.join " " evidence_texts)) parsed.

(** The rule that fires on a claim and an evidence list. *)
Definition fired_rule (claim : string) (evidence_texts : list string) : rule :=
  fst (correction_by_priority ∅ claim evidence_texts).


(* ================================================================== *)
(** ** src/tao_optimizer.py *)
(* ================================================================== *)

(** The [random] module, as far as the optimizer uses it. *)
Class RandomModule (W : Type) : Type := {
  random_uniform : Q -> Q -> M W Q;
  random_choice : list Z -> M W Z
}.

(** What the Python documentation promises of [random.uniform] ("a <= N <= b
    for a <= b") and of [random.choice] ("an element of the sequence"). *)
Record random_contract {W : Type} (R : RandomModule W) : Prop := {
  uniform_range :
    forall (a b : Q) (w : W) (x : Q) (w' : W),
      (a <= b)%Q -> random_uniform a b w = (Ok x, w') -> (a <= x <= b)%Q;
  choice_member :
    forall (l : list Z) (w : W) (x : Z) (w' : W),
      random_choice l w = (Ok x, w') -> In x l
}.

(** [time.time()] and [time.ctime(t)]. *)
Class Clock (W : Type) : Type := {
  time_time : W -> Q * W;
  time_ctime : Q -> string
}.

(** Rounding to the nearest integer, ties to even. *)
Definition round_half_even (x : Q) : Z :=
  let f := Qfloor x in
  let d := (x - inject_Z f)%Q in
  if Qltb d (1 # 2) then f
  else if Qltb (1 # 2) d then (f + 1)%Z
       else if Z.even f then f else (f + 1)%Z.

(** [round(x, ndigits)] for a non-negative number of digits. *)
Definition py_round (x : Q) (ndigits : nat) : Q :=
  let scale := Pos.pow 10 (Pos.of_nat ndigits) in
  match ndigits with
  | O => inject_Z (round_half_even x)
  | S _ => Qmake (round_half_even (x * inject_Z (Z.pos scale))) scale
  end.

Record training_stats : Type := {
  steps : Z;
  updates : Z;
  loss : Q
}.

Record TAOOptimizer : Type := {
  model_name : string;
  stats : training_stats;
  last_update : Q
}.

(** Truth value of an object: [bool(v)]. *)
Definition py_truthy (v : pyval) : bool :=
  match v with
  | PNone => false
  | PBool b => b
  | PInt z => negb (z =? 0)%Z
  | PFloat q => negb (Qeq_bool q 0)
  | PStr s => PyStr.truthy s
  | PList l => match l with [] => false | _ => true end
  | PDict d => dict_truthy d
  end.

(** [isinstance(v, list)] *)
Definition is_list (v : pyval) : bool :=
  match v with PList _ => true | _ => false end.

(** [len(v)] of a list. *)
Definition py_len (v : pyval) : Z :=
  match v with PList l => Z.of_nat (length l) | _ => 0%Z end.

(** Decimal text of an integer, as [str(n)] and [{n}] print it. *)
Definition str_of_Z (z : Z) : string :=
  DecimalString.NilZero.string_of_int (Z.to_int z).

(** Three decimal digits, zero-padded. *)
Definition pad3 (n : Z) : string :=
  let s := str_of_Z n in
  if (n <? 10)%Z then "00" +:+ s else if (n <? 100)%Z then "0" +:+ s else s.

(** [f"{x:.3f}"] *)
Definition format_3f (x : Q) : string :=
  let r := round_half_even (x * 1000) in
  let a := Z.abs r in
  (if (r <? 0)%Z then "-" else "") +:+
  str_of_Z (a / 1000) +:+ "." +:+ pad3 (a mod 1000).

Definition no_data_status : string := "No data provided for TAO training.".

Section TaoOptimizer.
Context {W : Type} {RM : RandomModule W} {CK : Clock W}.

(** [TAOOptimizer.__init__] *)
Definition TAOOptimizer_init (name : option string) (w : W) : TAOOptimizer * W :=
  let model_name :=
    match name with
    | Some n => if PyStr.truthy n then n else "google/flan-t5-base"
    | None => "google/flan-t5-base"
    end in
  let '(now, w) := time_time w in
  ({| model_name := model_name;
      stats := {| steps := 0; updates := 0; loss := 0.0 |};
      last_update := now |}, w).

Definition fallback_decoding_params : dict :=
  <["repetition_penalty" := PFloat 1.2]>
    (<["num_beams" := PInt 4]> (<["temperature" := PFloat 0.7]> ∅)).

(** The [try] block of [optimize_generation]. *)
Definition optimize_generation_body : M W dict :=
  t <- random_uniform 0.6 0.9 ;;
  let temperature := py_round t 2 in
  num_beams <- random_choice [2; 4; 6]%Z ;;
  r <- random_uniform 1.0 1.3 ;;
  let repetition_penalty := py_round r 2 in
  let decoding_params :=
    <["repetition_penalty" := PFloat repetition_penalty]>
      (<["num_beams" := PInt num_beams]>
         (<["temperature" := PFloat temperature]> ∅)) in
  ret decoding_params.

(** [optimize_generation]: the [except] clause turns every exception of
    the block into the fixed dictionary, so the result is a dictionary. *)
Definition optimize_generation (w : W) : dict * W :=
  match optimize_generation_body w with
  | (Ok decoding_params, w') => (decoding_params, w')
  | (Raise e, w') => (fallback_decoding_params, w')
  end.

(** [continual_train].  Nothing in the [try] block raises in this model
    (integer and float arithmetic, [len], [time.time()]), so its [except]
    clause has no counterpart here. *)
Definition continual_train (self : TAOOptimizer) (data_batch : pyval) (w : W)
  : (string * TAOOptimizer) * W :=
  if negb (py_truthy data_batch) || negb (is_list data_batch) then
    ((no_data_status, self), w)
  else
    let steps' := (steps (stats self) + py_len data_batch)%Z in
    let updates' := (updates (stats self) + 1)%Z in
    let loss' := fmax 0.01 (0.5 - 0.05 * inject_Z updates')%Q in
    let '(now, w) := time_time w in
    let self' :=
      {| model_name := model_name self;
         stats := {| steps := steps'; updates := updates'; loss := loss' |};
         last_update := now |} in
    (("TAO adapted: " +:+ str_of_Z updates' +:+ " updates, loss="
        +:+ format_3f loss', self'), w).

(** [n] successive calls, one per batch of the list. *)
Fixpoint continual_train_all
    (self : TAOOptimizer) (batches : list pyval) (w : W) : TAOOptimizer * W :=
  match batches with
  | [] => (self, w)
  | b :: rest =>
      let '((_, self'), w') := continual_train self b w in
      continual_train_all self' rest w'
  end.

End TaoOptimizer.

(* ================================================================== *)
(** ** src/live_retriever.py *)
(* ================================================================== *)

(** An evidence dictionary [{"source": .., "text": .., "score": ..}]; the
    score is [None] until the scoring pass when the adapter left it out. *)
Record evidence_item : Type := {
  ev_source : string;
  ev_text : string;
  ev_score : option Q
}.

(** The three source adapters.  Each of them catches its own exceptions and
    answers with a (possibly empty) list. *)
Class EvidenceSources (W : Type) : Type := {
  _search_faiss : string -> Z -> W -> list evidence_item * W;
  _wikipedia_search : string -> Z -> W -> list evidence_item * W;
  _newsapi_search : string -> Z -> W -> list evidence_item * W
}.

(** The sentence encoder ([self.embedder.encode], one row per text) and
    [faiss.normalize_L2] on one row. *)
Class Embedder : Type := {
  encode : string -> result (list Q);
  normalize_L2 : list Q -> list Q
}.

(** [sequence] of results: the first exception wins. *)
Fixpoint rmap {A B} (f : A -> result B) (l : list A) : result (list B) :=
  match l with
  | [] => Ok []
  | x :: r => y <~ f x ;; ys <~ rmap f r ;; Ok (y :: ys)
  end.

(** One entry of [np.dot(text_embs, query_emb.T)]: the shapes must agree. *)
Definition np_dot (u v : list Q) : result Q :=
  if Nat.eqb (length u) (length v)
  then Ok (fold_right Qplus 0%Q (zip_with Qmult u v))
  else Raise (Exn "ValueError" "shapes not aligned").

Definition set_score (e : evidence_item) (s : Q) : evidence_item :=
  {| ev_source := ev_source e; ev_text := ev_text e; ev_score := Some s |}.

(** Insertion into a list that is already in descending order of key; the
    new element goes in front of the elements whose key is not greater. *)
Fixpoint insert_desc {A} (x : Q * A) (l : list (Q * A)) : list (Q * A) :=
  match l with
  | [] => [x]
  | y :: r => if Qltb (fst x) (fst y) then y :: insert_desc x r else x :: y :: r
  end.

(** A stable sort in descending order of key.  [sorted(.., reverse=True)] is
    stable, and a stable sort has one possible result, so this insertion
    sort returns the list that Python's sort returns. *)
Definition sort_desc {A} (l : list (Q * A)) : list (Q * A) :=
  fold_right insert_desc [] l.

Definition key_of_score (e : evidence_item) : result (Q * evidence_item) :=
  match ev_score e with
  | Some s => Ok (s, e)
  | None => Raise (TypeError "'<' not supported between 'NoneType' and 'float'")
  end.

(** [sorted(evidence, key=lambda x: x["score"], reverse=True)]: comparing a
    [None] key raises; a list of at most one item is never compared. *)
Definition sorted_by_score_desc (evidence : list evidence_item)
  : result (list evidence_item) :=
  match evidence with
  | [] | [_] => Ok evidence
  | _ => keyed <~ rmap key_of_score evidence ;; Ok (map snd (sort_desc keyed))
  end.

(** [l[:k]] *)
Definition slice_to {A} (l : list A) (k : Z) : list A :=
  if (0 <=? k)%Z then firstn (Z.to_nat k) l
  else firstn (Z.to_nat (Z.of_nat (length l) + k)) l.

Section LiveRetriever.
Context {W : Type} {ES : EvidenceSources W} {EM : Embedder}.

(** Lines 142-147 of [retrieve]: the scores, one per evidence text. *)
Definition score_pass (query : string) (evidence : list evidence_item)
  : result (list Q) :=
  let texts := map ev_text evidence in
  query_emb <~ encode query ;;
  text_embs <~ rmap encode texts ;;
  let query_emb := normalize_L2 query_emb in
  let text_embs := map normalize_L2 text_embs in
  rmap (fun t => np_dot t query_emb) text_embs.

Definition retrieve (query : string) (top_k : Z) (w : W)
  : list evidence_item * W :=
  if negb (PyStr.truthy query) then ([], w)
  else
    let evidence := [] in
    let '(faiss_evidence, w) := _search_faiss query top_k w in
    let evidence := evidence ++ faiss_evidence in
    let '(wiki_evidence, w) := _wikipedia_search query 2 w in
    let evidence := evidence ++ wiki_evidence in
    let '(news_evidence, w) := _newsapi_search query 3 w in
    let evidence := evidence ++ news_evidence in
    match evidence with
    | [] => ([], w)
    | _ =>
        match score_pass query evidence with
        | Raise e => (evidence, w)
        | Ok scores =>
            (* the loop writes the scores into the dictionaries of the
               list, so the [except] clause returns them already scored *)
            let evidence := zip_with set_score evidence scores in
            match sorted_by_score_desc evidence with
            | Raise e => (evidence, w)
            | Ok ranked => (slice_to ranked top_k, w)
            end
        end
    end.

End LiveRetriever.

(* ================================================================== *)
(** ** src/rag_pipeline.py *)
(* ================================================================== *)

(** The three collaborators of the pipeline; each may be missing ([None])
    when its import or its constructor failed. *)
Record RAGPipeline : Type := {
  ret_available : bool;
  gen_available : bool;
  tao : option TAOOptimizer
}.

Definition evidence_to_py (e : evidence_item) : pyval :=
  PDict (<["score" := match ev_score e with Some s => PFloat s | None => PNone end]>
           (<["text" := PStr (ev_text e)]>
              (<["source" := PStr (ev_source e)]> ∅))).

Definition empty_input_result : dict :=
  <["tao_status" := PStr "No input provided."]>
    (<["_evidence" := PList []]>
       (<["explanation" := PStr "Empty input."]>
          (<["confidence" := PFloat 0.0]>
             (<["label" := PStr "Uncertain"]> ∅)))).

Definition uncertain_result (explanation : string) : dict :=
  <["explanation" := PStr explanation]>
    (<["confidence" := PFloat 0.5]>
       (<["label" := PStr "Uncertain"]> ∅)).

Section RagPipeline.
Context {W : Type} {ES : EvidenceSources W} {EM : Embedder}
        {RM : RandomModule W} {CK : Clock W}
        {GM : GenerationModel W} {PL : PyLib}.

Definition analyze (self : RAGPipeline) (text : string) (w : W)
  : (dict * RAGPipeline) * W :=
  if negb (PyStr.truthy text) || negb (PyStr.truthy (PyStr.strip text)) then
    ((empty_input_result, self), w)
  else
    (* Step 1: retrieve *)
    let '(evidence_docs, evidence_texts, w) :=
      if ret_available self then
        let '(docs, w) := retrieve text 6 w in
        (docs, map ev_text (filter (fun d => PyStr.truthy (ev_text d) = true) docs), w)
      else ([], [], w) in
    (* Step 2: decoding parameters *)
    let '(decoding_cfg, w) :=
      match tao self with
      | Some _ => let '(cfg, w) := optimize_generation w in (Some cfg, w)
      | None => (None, w)
      end in
    (* Step 3: generate *)
    if negb (gen_available self) then
      ((<["tao_status" := PStr "Skipped (no generator)"]>
          (<["_evidence" := PList (map evidence_to_py evidence_docs)]>
             (uncertain_result "Generator not available.")), self), w)
    else
      let '(out, w) :=
        match generate_explanation text evidence_texts decoding_cfg w with
        | (Ok out, w) =>
            (if dict_truthy out then out else uncertain_result "No output", w)
        | (Raise e, w) => (uncertain_result (exn_msg e), w)
        end in
      (* Step 4: continual training *)
      let '(out, self, w) :=
        match tao self with
        | Some t =>
            let sample :=
              PDict (<["label" := dict_get out "label" (PStr "Uncertain")]>
                       (<["text" := PStr text]> ∅)) in
            let '((status, t), w) := continual_train t (PList [sample]) w in
            let out := <["tao_status" := PStr status]> out in
            let out := <["last_update" := PStr (time_ctime (last_update t))]> out in
            (out,
             {| ret_available := ret_available self;
                gen_available := gen_available self;
                tao := Some t |}, w)
        | None => (<["tao_status" := PStr "TAO module not loaded."]> out, self, w)
        end in
      (* Step 5: attach the evidence *)
      ((<["_evidence" := PList (map evidence_to_py evidence_docs)]> out, self), w).

End RagPipeline.

(* ================================================================== *)
(** ** src/live_retriever.py: the three source adapters *)
(* ================================================================== *)

(** The [wikipedia] package: [wikipedia.search(query, results=k)] and
    [wikipedia.summary(title, sentences=n)].  Both may raise. *)
Class WikipediaLib (W : Type) : Type := {
  wikipedia_search : string -> Z -> M W (list string);
  wikipedia_summary : string -> Z -> M W string
}.

(** The module constant [NEWSAPI_KEY] and the request of [_newsapi_search]:
    [requests.get(url, params=params, timeout=t).json()].  It may raise. *)
Class NewsApiLib (W : Type) : Type := {
  NEWSAPI_KEY : string;
  requests_get_json : string -> dict -> Z -> M W pyval
}.

(** A FAISS index: [index.search(emb, k)], as the list of the pairs
    [zip(I[0], D[0])] of row number and score. *)
Class FaissLib : Type := {
  faiss_index : Type;
  index_search : faiss_index -> list Q -> Z -> result (list (Z * Q))
}.

(** The table that [build_faiss.py] pickles, [df.to_dict()]: for every column
    name, the values of the column by row number. *)
Abbreviation faiss_meta := (gmap string (gmap Z pyval)).

(** The fields of a [LiveRetriever] that [_search_faiss] reads; [None] when
    [_load_faiss] found no index. *)
Record LiveRetriever {FL : FaissLib} : Type := {
  index : option faiss_index;
  meta : option faiss_meta
}.
Arguments LiveRetriever : clear implicits.
Arguments LiveRetriever {FL}.

(** [s.replace(old, new)] for a one-character [old]. *)
Fixpoint replace_char (old : ascii) (new : string) (s : string) : string :=
  match s with
  | "" => ""
  | String c r =>
      if Ascii.eqb c old then new +:+ replace_char old new r
      else String c (replace_char old new r)
  end.

(** The dictionary [{"source": .., "text": .., "score": ..}]. *)
Definition evidence_dict (source text score : pyval) : pyval :=
  PDict (<["score" := score]> (<["text" := text]> (<["source" := source]> ∅))).

(** [a + b] where the left operand is a string: defined for two strings. *)
Definition str_add (a b : pyval) : result string :=
  match a, b with
  | PStr x, PStr y => Ok (x +:+ y)
  | _, _ => Raise (TypeError "can only concatenate str to str")
  end.

(** [s[:n]] on a string. *)
Definition str_slice_to (s : string) (n : nat) : string := String.substring 0 n s.

Definition KeyError (msg : string) : exn := Exn "KeyError" msg.

Definition wikipedia_url (title : string) : string :=
  "https://en.wikipedia.org/wiki/" +:+ replace_char " " "_" title.

(** The body of the loop of [_newsapi_search], for one article. *)
Definition news_article (a : pyval) : result pyval :=
  a <~ as_dict a ;;
  t <~ str_add (dict_get a "title" (PStr "")) (PStr ". ") ;;
  t <~ str_add (PStr t) (dict_get a "description" (PStr "")) ;;
  let snippet := str_slice_to t 1000 in
  Ok (evidence_dict (dict_get a "url" (PStr "newsapi")) (PStr snippet) PNone).

(** [for a in articles: ...]: a list is walked item by item; a dictionary or
    a string is walked too (keys, characters), and its first item fails at
    [a.get]; anything else is not iterable. *)
Definition news_articles (articles : pyval) : result (list pyval) :=
  match articles with
  | PList l => rmap news_article l
  | PDict d =>
      if dict_truthy d
      then Raise (Exn "AttributeError" "'str' object has no attribute 'get'")
      else Ok []
  | PStr s =>
      if PyStr.truthy s
      then Raise (Exn "AttributeError" "'str' object has no attribute 'get'")
      else Ok []
  | _ => Raise (TypeError "object is not iterable")
  end.

Module Adapters.

Section Wikipedia.
Context {W : Type} {WL : WikipediaLib W}.

(** The loop of [_wikipedia_search]: a title whose summary raises is
    skipped. *)
Fixpoint wikipedia_summaries (titles : list string) (w : W)
  : list evidence_item * W :=
  match titles with
  | [] => ([], w)
  | title :: rest =>
      match wikipedia_summary title 2 w with
      | (Ok summary, w) =>
          let '(results, w) := wikipedia_summaries rest w in
          ({| ev_source := wikipedia_url title; ev_text := summary;
              ev_score := None |} :: results, w)
      | (Raise e, w) => wikipedia_summaries rest w
      end
  end.

Definition _wikipedia_search (query : string) (top_k : Z) (w : W)
  : list evidence_item * W :=
  match wikipedia_search query top_k w with
  | (Ok search_results, w) => wikipedia_summaries search_results w
  | (Raise e, w) => ([], w)
  end.

End Wikipedia.

Section NewsApi.
Context {W : Type} {NL : NewsApiLib W}.

Definition newsapi_params (query : string) (top_k : Z) : dict :=
  <["apiKey" := PStr NEWSAPI_KEY]>
    (<["pageSize" := PInt top_k]>
       (<["language" := PStr "en"]> (<["q" := PStr query]> ∅))).

Definition _newsapi_search (query : string) (top_k : Z) (w : W)
  : list pyval * W :=
  if negb (PyStr.truthy NEWSAPI_KEY) then ([], w)
  else
    match requests_get_json "https://newsapi.org/v2/everything"
            (newsapi_params query top_k) 8 w with
    | (Ok body, w) =>
        (try_except
           (body <~ as_dict body ;;
            news_articles (dict_get body "articles" (PList [])))
           (fun e => []), w)
    | (Raise e, w) => ([], w)
    end.

End NewsApi.

Section Faiss.
Context {FL : FaissLib} {EM : Embedder}.

(** [self.meta.get("source_url", ["local_FAISS"])[0]] *)
Definition faiss_source (m : faiss_meta) : result pyval :=
  match m !! "source_url" with
  | Some column =>
      match column !! 0%Z with
      | Some v => Ok v
      | None => Raise (KeyError "0")
      end
  | None => Ok (PStr "local_FAISS")
  end.

(** [self.meta["text"][idx]] *)
Definition faiss_text (m : faiss_meta) (idx : Z) : result pyval :=
  match m !! "text" with
  | Some column =>
      match column !! idx with
      | Some v => Ok v
      | None => Raise (KeyError (str_of_Z idx))
      end
  | None => Raise (KeyError "'text'")
  end.

Definition faiss_hit (m : faiss_meta) (hit : Z * Q) : result pyval :=
  source <~ faiss_source m ;;
  text <~ faiss_text m (fst hit) ;;
  Ok (evidence_dict source text (PFloat (snd hit))).

Definition _search_faiss (self : LiveRetriever) (query : string) (top_k : Z)
  : list pyval :=
  match index self, meta self with
  | Some idx, Some m =>
      try_except
        (emb <~ encode query ;;
         let emb := normalize_L2 emb in
         hits <~ index_search idx emb top_k ;;
         rmap (faiss_hit m) hits)
        (fun e => [])
  | _, _ => []
  end.

End Faiss.

End Adapters.

(* ================================================================== *)
(** ** src/eval.py *)
(* ================================================================== *)

(** Lines 12-18 of [evaluate]: the predicted label read off one result of
    [analyze]. *)
Definition evaluate_label (out : dict) : result pyval :=
  let lab := dict_get out "label" (dict_get out "predicted_label" PNone) in
  match lab, out !! "raw_output" with
  | PNone, Some raw =>
      match raw with
      | PStr s =>
          let txt := PyStr.lower s in
          Ok (PStr (if PyStr.contains "fake" txt then "Fake"
                    else if PyStr.contains "true" txt then "True"
                         else "Uncertain"))
      | _ => Raise (Exn "AttributeError" "object has no attribute 'lower'")
      end
  | _, _ => Ok lab
  end.

Section RagPipelineRuns.
Context {W : Type} {ES : EvidenceSources W} {EM : Embedder}
        {RM : RandomModule W} {CK : Clock W}
        {GM : GenerationModel W} {PL : PyLib}.

(** Successive calls of [analyze] on one pipeline, one per text. *)
Fixpoint analyze_all (self : RAGPipeline) (texts : list string) (w : W)
  : RAGPipeline * W :=
  match texts with
  | [] => (self, w)
  | text :: rest =>
      let '((_, self'), w') := analyze self text w in
      analyze_all self' rest w'
  end.

End RagPipelineRuns.

(* ================================================================== *)
(** ** A scripted environment, to run the model on examples *)
(* ================================================================== *)

(** The calls that reach the outside. *)
Inductive event : Type :=
| EvGenerate (prompt : string) (kwargs : generate_kwargs)
| EvFaiss (query : string) (top_k : Z)
| EvWikipedia (query : string) (top_k : Z)
| EvNewsApi (query : string) (top_k : Z)
| EvRandom
| EvClock.

Record world : Type := {
  w_log : list event;   (* the calls made so far, oldest first *)
  w_seed : N;           (* state of the pseudo-random generator *)
  w_now : Q             (* the clock *)
}.

Definition log_event (ev : event) (w : world) : world :=
  {| w_log := w_log w ++ [ev]; w_seed := w_seed w; w_now := w_now w |}.

Definition world0 : world := {| w_log := []; w_seed := 42; w_now := 1000 |}.

Module Example.

(** U+00A0, the no-break space, and U+3000, the ideographic space. *)
Definition nbsp : string :=
  String (Ascii.ascii_of_N 194) (String (Ascii.ascii_of_N 160) "").

Definition ideographic_space : string :=
  String (Ascii.ascii_of_N 227)
    (String (Ascii.ascii_of_N 128) (String (Ascii.ascii_of_N 128) "")).

(** A text of white space that is not all ASCII. *)
Definition blank_text : string :=
  " " ++ nbsp ++ ideographic_space ++ String (Ascii.ascii_of_N 9) "".

(** A generation model that logs the call and answers [reply]. *)
Definition scripted_model (reply : string) : GenerationModel world :=
  {| llm_generate := fun prompt kwargs w =>
       (Ok reply, log_event (EvGenerate prompt kwargs) w) |}.

(** Adapters that log the call and answer fixed lists. *)
Definition scripted_sources (faiss wiki news : list evidence_item)
  : EvidenceSources world :=
  {| _search_faiss := fun q k w => (faiss, log_event (EvFaiss q k) w);
     _wikipedia_search := fun q k w => (wiki, log_event (EvWikipedia q k) w);
     _newsapi_search := fun q k w => (news, log_event (EvNewsApi q k) w) |}.

(** An encoder into the three unit vectors of dimension 3, chosen by the
    length of the text; unit vectors are their own normalisation. *)
Definition unit_embedder : Embedder :=
  {| encode := fun s =>
       Ok (match (String.length s mod 3)%nat with
           | O => [1; 0; 0]
           | S O => [0; 1; 0]
           | _ => [0; 0; 1]
           end)%Q;
     normalize_L2 := fun v => v |}.

Definition next_seed (s : N) : N := ((s * 1103515245 + 12345) mod 2147483648)%N.

Definition step_seed (w : world) : world :=
  {| w_log := w_log w ++ [EvRandom]; w_seed := next_seed (w_seed w);
     w_now := w_now w |}.

(** A linear congruential generator: [uniform a b] is
    [a + (b - a) * r] with [r] one of 0/1000, .., 999/1000. *)
Definition lcg_random : RandomModule world :=
  {| random_uniform := fun a b w =>
       let r := Qmake (Z.of_N (w_seed w mod 1000)) 1000 in
       (Ok (a + (b - a) * r)%Q, step_seed w);
     random_choice := fun l w =>
       match l with
       | [] => (Raise (Exn "IndexError" "Cannot choose from an empty sequence"), w)
       | x :: _ =>
           (Ok (nth (N.to_nat (w_seed w mod N.of_nat (length l))) l x), step_seed w)
       end |}.

(** A random module whose every call raises. *)
Definition broken_random : RandomModule world :=
  {| random_uniform := fun _ _ w => (Raise (Exn "RuntimeError" "no entropy"), w);
     random_choice := fun _ w => (Raise (Exn "RuntimeError" "no entropy"), w) |}.

(** A clock that advances by one second at each reading. *)
Definition ticking_clock : Clock world :=
  {| time_time := fun w =>
       (w_now w,
        {| w_log := w_log w ++ [EvClock]; w_seed := w_seed w;
           w_now := (w_now w + 1)%Q |});
     time_ctime := fun t => "t=" +:+ str_of_Z (Qfloor t) |}.

(** *** [json.loads] on a fragment of JSON

    One object whose keys are string literals and whose values are string
    literals (without escapes), integers, [true], [false] or [null].  On
    any other text this function answers with an exception, which
    [json.loads] does only on texts that are not JSON. *)

Definition is_json_ws (c : ascii) : bool :=
  let n := Ascii.N_of_ascii c in
  ((n =? 32) || (n =? 9) || (n =? 10) || (n =? 13))%N.

Fixpoint skip_ws (s : string) : string :=
  match s with
  | String c r => if is_json_ws c then skip_ws r else s
  | "" => ""
  end.

(** The text after an opening quote, up to the closing quote. *)
Fixpoint read_string_body (s : string) : option (string * string) :=
  match s with
  | "" => None
  | String c r =>
      let n := Ascii.N_of_ascii c in
      if (n =? 34)%N then Some ("", r)
      else if ((n =? 92) || (n <? 32))%N then None
      else match read_string_body r with
           | Some (body, rest) => Some (String c body, rest)
           | None => None
           end
  end.

Definition digit_of (c : ascii) : option Z :=
  let n := Ascii.N_of_ascii c in
  if ((48 <=? n) && (n <=? 57))%N then Some (Z.of_N (n - 48)) else None.

(** Reads digits, with the number read so far in [acc]. *)
Fixpoint read_digits (acc : Z) (s : string) : Z * string :=
  match s with
  | "" => (acc, "")
  | String c r =>
      match digit_of c with
      | Some d => read_digits (acc * 10 + d) r
      | None => (acc, s)
      end
  end.

(** An integer literal: no leading zero, no fraction, no exponent. *)
Definition read_int (s : string) : option (Z * string) :=
  let '(neg, s) :=
    match s with
    | String "-" r => (true, r)
    | _ => (false, s)
    end in
  match s with
  | String c r =>
      match digit_of c with
      | Some d =>
          let '(z, rest) := read_digits 0 s in
          let leading_zero :=
            (d =? 0)%Z && match r with
                          | String c' _ =>
                              match digit_of c' with Some _ => true | None => false end
                          | "" => false
                          end in
          let continues :=
            match rest with
            | String c' _ =>
                let n := Ascii.N_of_ascii c' in
                ((n =? 46) || (n =? 101) || (n =? 69))%N
            | "" => false
            end in
          if leading_zero || continues then None
          else Some (if neg then (- z)%Z else z, rest)
      | None => None
      end
  | "" => None
  end.

Definition strip_prefix (p s : string) : option string :=
  if String.prefix p s
  then Some (String.substring (String.length p)
               (String.length s - String.length p) s)
  else None.

Definition read_value (s : string) : option (pyval * string) :=
  match s with
  | String c r =>
      if (Ascii.N_of_ascii c =? 34)%N then
        match read_string_body r with
        | Some (body, rest) => Some (PStr body, rest)
        | None => None
        end
      else
        match strip_prefix "true" s, strip_prefix "false" s,
              strip_prefix "null" s with
        | Some rest, _, _ => Some (PBool true, rest)
        | _, Some rest, _ => Some (PBool false, rest)
        | _, _, Some rest => Some (PNone, rest)
        | _, _, _ =>
            match read_int s with
            | Some (z, rest) => Some (PInt z, rest)
            | None => None
            end
        end
  | "" => None
  end.

(** The members of an object, from the first key on; a later member
    replaces an earlier one with the same key.  [fuel] bounds the number
    of members. *)
Fixpoint read_members (fuel : nat) (acc : dict) (s : string)
  : option (dict * string) :=
  match fuel with
  | O => None
  | S fuel =>
      match skip_ws s with
      | String c r =>
          if (Ascii.N_of_ascii c =? 34)%N then
            match read_string_body r with
            | Some (key, rest) =>
                match skip_ws rest with
                | String ":" rest =>
                    match read_value (skip_ws rest) with
                    | Some (v, rest) =>
                        let acc := <[key := v]> acc in
                        match skip_ws rest with
                        | String "," rest => read_members fuel acc rest
                        | String "}" rest => Some (acc, rest)
                        | _ => None
                        end
                    | None => None
                    end
                | _ => None
                end
            | None => None
            end
          else None
      | "" => None
      end
  end.

Definition JSONDecodeError : exn := Exn "JSONDecodeError" "Expecting value".

Definition example_json_loads (text : string) : result pyval :=
  match skip_ws text with
  | String "{" r =>
      match skip_ws r with
      | String "}" rest =>
          if String.eqb (skip_ws rest) "" then Ok (PDict ∅)
          else Raise JSONDecodeError
      | _ =>
          match read_members (String.length r) ∅ r with
          | Some (d, rest) =>
              if String.eqb (skip_ws rest) "" then Ok (PDict d)
              else Raise JSONDecodeError
          | None => Raise JSONDecodeError
          end
      end
  | _ => Raise JSONDecodeError
  end.

(** [float(s)] on plain decimals: an optional sign, digits, and an
    optional fraction. *)
Definition example_float_of_str (s : string) : result Q :=
  let bad := Raise (Exn "ValueError" "could not convert string to float") in
  let s := PyStr.strip s in
  let '(neg, s) :=
    match s with
    | String "-" r => (true, r)
    | String "+" r => (false, r)
    | _ => (false, s)
    end in
  match s with
  | String c _ =>
      if (match digit_of c with Some _ => true | None => false end) then
        let '(ip, rest) := read_digits 0 s in
        let sign := if neg then (-1)%Z else 1%Z in
        match rest with
        | "" => Ok (inject_Z (sign * ip))
        | String "." frac =>
            let '(fp, rest') := read_digits 0 frac in
            if String.eqb rest' "" then
              let scale := Pos.pow 10 (Pos.of_nat (String.length frac)) in
              match frac with
              | "" => Ok (inject_Z (sign * ip))
              | _ => Ok (Qmake (sign * (ip * Z.pos scale + fp)) scale)
              end
            else bad
        | _ => bad
        end
      else bad
  | "" => bad
  end.

Definition example_pylib : PyLib :=
  {| json_loads := example_json_loads; float_of_str := example_float_of_str |}.

(** No local index, two answers of the encyclopedic adapter and two of the
    news adapter, the last with a score of its own. *)
Definition sample_sources : EvidenceSources world :=
  scripted_sources []
    [ {| ev_source := "https://en.wikipedia.org/wiki/A"; ev_text := "bb";
         ev_score := None |};
      {| ev_source := "https://en.wikipedia.org/wiki/B"; ev_text := "aaa";
         ev_score := None |} ]
    [ {| ev_source := "https://news.example/1"; ev_text := "d";
         ev_score := None |};
      {| ev_source := "https://news.example/2"; ev_text := "cccccc";
         ev_score := Some 0.3%Q |} ].

(** A pipeline with its three collaborators. *)
Definition full_pipeline : RAGPipeline :=
  {| ret_available := true;
     gen_available := true;
     tao := Some {| model_name := "google/flan-t5-base";
                    stats := {| steps := 0; updates := 0; loss := 0.0 |};
                    last_update := 999 |} |}.


(** The text [{"label": "Fake", "confidence": null}]. *)
Definition raw_null_confidence : string :=
  "{" +:+ PyStr.dquote +:+ "label" +:+ PyStr.dquote +:+ ": "
      +:+ PyStr.dquote +:+ "Fake" +:+ PyStr.dquote +:+ ", "
      +:+ PyStr.dquote +:+ "confidence" +:+ PyStr.dquote +:+ ": null}".

(** An encoder that is out of order. *)
Definition failing_embedder : Embedder :=
  {| encode := fun _ => Raise (Exn "RuntimeError" "encoder not loaded");
     normalize_L2 := fun v => v |}.

(** A generation model that fails the first time it is called and answers
    "true" from then on. *)
Definition flaky_model : GenerationModel world :=
  {| llm_generate := fun prompt kwargs w =>
       (if existsb (fun ev => match ev with EvGenerate _ _ => true | _ => false end)
             (w_log w)
        then Ok "true"
        else Raise (Exn "RuntimeError" "CUDA out of memory"),
        log_event (EvGenerate prompt kwargs) w) |}.

(** An encyclopedia with two matching titles, the second without a page. *)
Definition scripted_wikipedia : WikipediaLib world :=
  {| wikipedia_search := fun q k w =>
       (Ok ["Flat Earth"; "Missing page"], log_event (EvWikipedia q k) w);
     wikipedia_summary := fun title n w =>
       (if String.eqb title "Missing page"
        then Raise (Exn "PageError" "Page id does not match any pages")
        else Ok ("About " +:+ title), w) |}.

(** The same encyclopedia when the title without a page comes first. *)
Definition gappy_wikipedia : WikipediaLib world :=
  {| wikipedia_search := fun q k w =>
       (Ok ["Missing page"; "Flat Earth"], log_event (EvWikipedia q k) w);
     wikipedia_summary := wikipedia_summary (WikipediaLib := scripted_wikipedia) |}.

(** Its pages. *)
Definition pages (title : string) : option string :=
  if String.eqb title "Missing page" then None else Some ("About " +:+ title).

(** A news service with the key [key] that answers every request with
    [body]. *)
Definition scripted_newsapi (key : string) (body : pyval) : NewsApiLib world :=
  {| NEWSAPI_KEY := key;
     requests_get_json := fun url params timeout w =>
       (Ok body, log_event (EvNewsApi url timeout) w) |}.

Definition article (title description url : pyval) : pyval :=
  PDict (<["url" := url]>
           (<["description" := description]> (<["title" := title]> ∅))).

(** Two articles, the second with [null] for its description. *)
Definition news_body : pyval :=
  PDict (<["articles" :=
             PList [article (PStr "Earth is round") (PStr "Still.")
                      (PStr "https://news.example/1");
                    article (PStr "Breaking") PNone
                      (PStr "https://news.example/2")]]> ∅).

(** An index that answers every search with [hits]. *)
Definition scripted_faiss (hits : list (Z * Q)) : FaissLib :=
  {| faiss_index := unit; index_search := fun _ _ _ => Ok hits |}.

(** The table of the three demonstration documents of [makeevidence.py]. *)
Definition demo_meta : faiss_meta :=
  <["source_url" :=
      <[2%Z := PStr "https://ipcc.ch"]>
        (<[1%Z := PStr "https://who.int/vaccines"]>
           (<[0%Z := PStr "https://nasa.gov/apollo11"]> ∅))]>
    (<["text" :=
         <[2%Z := PStr "Climate change is driven by greenhouse gas emissions from human activity."]>
           (<[1%Z := PStr "Vaccines undergo safety trials before approval; multiple agencies monitor safety."]>
              (<[0%Z := PStr "The moon landing occurred on July 20, 1969, with Apollo 11 landing on the lunar surface."]> ∅))]>
       (<["id" := <[2%Z := PInt 2]> (<[1%Z := PInt 1]> (<[0%Z := PInt 0]> ∅))]>
          ∅)).

Definition demo_retriever (hits : list (Z * Q))
  : @LiveRetriever (scripted_faiss hits) :=
  @Build_LiveRetriever (scripted_faiss hits)
    (Some (tt : @faiss_index (scripted_faiss hits))) (Some demo_meta).

Definition padded_hits : list (Z * Q) :=
  [(0%Z, 0.9%Q); (2%Z, 0.5%Q); (1%Z, 0.1%Q);
   ((-1)%Z, (-1)%Q); ((-1)%Z, (-1)%Q); ((-1)%Z, (-1)%Q)].

End Example.

(* ================================================================== *)
(** ** Vocabulary of the statements *)
(* ================================================================== *)

(** The shape of every dictionary that [_parse_output] builds: the five keys,
    with a float under ["confidence"]. *)
Definition parsed_verdict (d : dict) : Prop :=
  exists (label explanation counterfactual reasoning : pyval) (confidence : Q),
    d = verdict label (PFloat confidence) explanation counterfactual reasoning.

(** Two dictionaries agree outside the keys ["label"] and ["confidence"]. *)
Definition same_but_label_confidence (d d' : dict) : Prop :=
  forall k : string, k <> "label" -> k <> "confidence" -> d' !! k = d !! k.


(** The context of the prompt: at most five evidence texts. *)
Definition prompt_context (evidence_texts : list string) : string :=
  match evidence_texts with
  | [] => "No relevant evidence found."
  | _ => PyStr.join " " (firstn 5 evidence_texts)
  end.



(** [max(0.01, 0.5 - 0.05 * n)], the loss curve of the specification. *)
Definition loss_curve (n : Z) : Q := fmax 0.01 (0.5 - 0.05 * inject_Z n)%Q.

(** A non-empty Python list. *)
Definition nonempty_batch (v : pyval) : Prop :=
  exists (x : pyval) (l : list pyval), v = PList (x :: l).

(** The fresh optimizer: [TAOOptimizer(model_name)] built in world [w]. *)
Definition fresh_optimizer {W} {CK : Clock W} (name : option string) (w : W)
  : TAOOptimizer :=
  fst (TAOOptimizer_init name w).

(** [a] is ranked at least as high as [b]: both are scored and the score of
    [a] is not smaller. *)
Definition score_ge (a b : evidence_item) : Prop :=
  match ev_score a, ev_score b with
  | Some x, Some y => (y <= x)%Q
  | _, _ => False
  end.

(** The item carries the score [s]. *)
Definition has_score (s : Q) (e : evidence_item) : bool :=
  match ev_score e with
  | Some x => Qeq_bool x s
  | None => false
  end.

(** The items of [l] that carry the score [s], in the order of [l]. *)
Definition with_score (s : Q) (l : list evidence_item) : list evidence_item :=
  List.filter (has_score s) l.

(** The cosine similarity of a text with the query: the dot product of the
    two normalised embeddings. *)
Definition cosine_similarity {EM : Embedder} (query text : string) : result Q :=
  q <~ encode query ;;
  t <~ encode text ;;
  np_dot (normalize_L2 t) (normalize_L2 q).

(** Decoding parameters within the ranges of the specification. *)
Definition params_in_range (d : dict) : Prop :=
  exists (t r : Q) (b : Z),
    d !! "temperature" = Some (PFloat t)
    /\ d !! "num_beams" = Some (PInt b)
    /\ d !! "repetition_penalty" = Some (PFloat r)
    /\ (0.6 <= t <= 0.9)%Q
    /\ (b = 2 \/ b = 4 \/ b = 6)%Z
    /\ (1.0 <= r <= 1.3)%Q.

(** The loss as a function of the update count alone: the constructor's
    0.0 before the first update, the loss curve from then on. *)
Definition loss_of_updates (u : Z) : Q :=
  if (u =? 0)%Z then 0.0%Q else loss_curve u.

(** Order and equality of the sort keys. *)
Definition key_ge {A} (a b : Q * A) : Prop := (fst b <= fst a)%Q.
Definition key_is {A} (s : Q) (p : Q * A) : bool := Qeq_bool (fst p) s.

(** The pair carries, as its key, the score of its item. *)
Definition keyed_by_score (p : Q * evidence_item) : Prop :=
  ev_score (snd p) = Some (fst p).

(** The scored item [e'] is the item [e] of the concatenation with, as its
    score, the cosine similarity of its text with the query. *)
Definition scored_by_cosine {EM : Embedder}
    (query : string) (e e' : evidence_item) : Prop :=
  ev_source e' = ev_source e
  /\ ev_text e' = ev_text e
  /\ exists s : Q,
       cosine_similarity query (ev_text e) = Ok s /\ ev_score e' = Some s.

(** The keys of a parsed verdict, and those of the empty-claim verdict. *)
Definition five_keys : gset string :=
  {["label"; "confidence"; "explanation"; "counterfactual"; "reasoning"]}.
Definition three_keys : gset string :=
  {["label"; "confidence"; "explanation"]}.

(** The dictionary that [_parse_output] falls back on. *)
Definition fallback_verdict (text : string) : dict :=
  verdict (PStr "Uncertain") (PFloat 0.5) (PStr (PyStr.strip text))
    (PStr "") (PList []).

(** The keyword arguments that carry the three entries of [cfg], with the
    default [max_length]. *)
Definition kwargs_of_params (t r : Q) (b : Z) : generate_kwargs :=
  {| kw_max_length := PInt 256;
     kw_temperature := PFloat t;
     kw_num_beams := PInt b;
     kw_repetition_penalty := PFloat r |}.

(** The number of samples in a list of batches: the sum of their [len]. *)
Definition total_samples (batches : list pyval) : Z :=
  fold_right (fun b acc => (py_len b + acc)%Z) 0%Z batches.

(** The item has the source and the text of an item of [evidence]. *)
Definition from_adapters (evidence : list evidence_item) (e : evidence_item)
  : Prop :=
  exists e0 : evidence_item,
    In e0 evidence /\ ev_source e = ev_source e0 /\ ev_text e = ev_text e0.

(** The keys that every result of [analyze] has, and the keys it may have. *)
Definition result_keys_always : gset string :=
  {["label"; "confidence"; "explanation"; "tao_status"; "_evidence"]}.
Definition result_keys_possible : gset string :=
  {["label"; "confidence"; "explanation"; "tao_status"; "_evidence";
    "counterfactual"; "reasoning"; "last_update"]}.

(** The evidence that [analyze] attaches: the answer of [retrieve] with
    top_k = 6 when there is a retriever, nothing otherwise. *)
Definition attached_evidence
    {W : Type} {ES : EvidenceSources W} {EM : Embedder}
    (self : RAGPipeline) (text : string) (w : W) : pyval :=
  PList (map evidence_to_py
           (if ret_available self then fst (retrieve text 6 w) else [])).

(** The call of the generator that [analyze] makes on a text that is not
    blank: the evidence texts and the decoding parameters it passes and the
    world the call runs in, once the retriever (step 1) and the optimizer
    (step 2) have run. *)
Definition generator_call
    {W : Type} {ES : EvidenceSources W} {EM : Embedder} {RM : RandomModule W}
    (self : RAGPipeline) (text : string) (w : W)
  : (list string * option dict) * W :=
  let '(evidence_texts, w) :=
    if ret_available self then
      let '(docs, w) := retrieve text 6 w in
      (map ev_text (filter (fun d => PyStr.truthy (ev_text d) = true) docs), w)
    else ([], w) in
  match tao self with
  | Some _ =>
      let '(cfg, w) := optimize_generation w in ((evidence_texts, Some cfg), w)
  | None => ((evidence_texts, None), w)
  end.

(** What that call gives: a verdict or an exception. *)
Definition generator_outcome
    {W : Type} {ES : EvidenceSources W} {EM : Embedder} {RM : RandomModule W}
    {GM : GenerationModel W} {PL : PyLib}
    (self : RAGPipeline) (text : string) (w : W) : result dict :=
  let '((evidence_texts, decoding_cfg), w) := generator_call self text w in
  fst (generate_explanation text evidence_texts decoding_cfg w).

(** The answer of the encyclopedic adapter for a title and its summary. *)
Definition summary_item (title summary : string) : evidence_item :=
  {| ev_source := wikipedia_url title; ev_text := summary; ev_score := None |}.

(** The summaries asked for, one call per title, in the order of the titles
    and each in the world the call before it left, whether that call raised
    or not; every title is paired with the outcome of its call. *)
Fixpoint summary_calls {W : Type} {WL : WikipediaLib W}
    (titles : list string) (w : W) : list (string * result string) * W :=
  match titles with
  | [] => ([], w)
  | title :: rest =>
      let '(r, w) := wikipedia_summary title 2 w in
      let '(calls, w) := summary_calls rest w in
      ((title, r) :: calls, w)
  end.

(** A call that gave a summary is kept, a call that raised is not. *)
Definition kept_summary (call : string * result string) : option evidence_item :=
  match snd call with
  | Ok summary => Some (summary_item (fst call) summary)
  | Raise _ => None
  end.

(** An encyclopedia whose answers do not change: [page title] is the summary
    of the title, if it has one. *)
Definition page_summary (page : string -> option string) (title : string)
  : option evidence_item :=
  match page title with
  | Some summary => Some (summary_item title summary)
  | None => None
  end.

Definition summaries_follow {W : Type} {WL : WikipediaLib W}
    (page : string -> option string) : Prop :=
  forall (title : string) (w : W),
    match page title with
    | Some summary => fst (wikipedia_summary title 2 w) = Ok summary
    | None => exists e, fst (wikipedia_summary title 2 w) = Raise e
    end.


(** An article whose title or description is present and is not a string
    ([null], a number, ...). *)
Definition malformed_article (a : pyval) : Prop :=
  exists (d : dict) (field : string) (v : pyval),
    a = PDict d
    /\ (field = "title" \/ field = "description")
    /\ d !! field = Some v
    /\ (forall s : string, v <> PStr s).


(* ================================================================== *)
(** ** Lemmas on the correction pass *)
(* ================================================================== *)

Lemma correct_with_evidence_by_priority parsed claim evidence_texts :
  _correct_with_evidence parsed claim evidence_texts
  = snd (correction_by_priority parsed claim evidence_texts).
Proof.
  unfold _correct_with_evidence, correction_by_priority, correction_rules.
  cbn [first_match spec_rule_a spec_rule_b spec_rule_c spec_rule_d
       rule_applies rule_name rule_action].
  destruct (cond_a _); [reflexivity|].
  destruct (cond_b _ _); [reflexivity|].
  destruct (cond_c _); [reflexivity|].
  destruct (cond_d _); reflexivity.
Qed.

Lemma fired_rule_any_parsed parsed claim evidence_texts :
  fst (correction_by_priority parsed claim evidence_texts)
  = fired_rule claim evidence_texts.
Proof.
  unfold fired_rule, correction_by_priority, correction_rules.
  cbn [first_match spec_rule_a spec_rule_b spec_rule_c spec_rule_d
       rule_applies rule_name rule_action].
  destruct (cond_a _); [reflexivity|].
  destruct (cond_b _ _); [reflexivity|].
  destruct (cond_c _); [reflexivity|].
  destruct (cond_d _); reflexivity.
Qed.

(** The fired rule, read off the conditions of the [if]/[elif] chain. *)
Lemma fired_rule_conditions claim evidence_texts :
  let cl := PyStr.lower claim in
  let ej := PyStr.lower (PyStr.join " " evidence_texts) in
  fired_rule claim evidence_texts =
    if cond_a ej then RuleA
    else if cond_b cl ej then RuleB
    else if cond_c ej then RuleC
    else if cond_d ej then RuleD
    else RuleE.
Proof.
  unfold fired_rule, correction_by_priority, correction_rules.
  cbn [first_match spec_rule_a spec_rule_b spec_rule_c spec_rule_d
       rule_applies rule_name rule_action].
  cbv zeta.
  destruct (cond_a _); [reflexivity|].
  destruct (cond_b _ _); [reflexivity|].
  destruct (cond_c _); [reflexivity|].
  destruct (cond_d _); reflexivity.
Qed.

Lemma cond_a_false_term evidence_joined :
  PyStr.contains "false" evidence_joined = true -> cond_a evidence_joined = true.
Proof.
  intros H. unfold cond_a, contradiction_terms. cbn [existsb].
  rewrite H. rewrite !orb_true_r. reflexivity.
Qed.

Lemma verdict_lookup_label l c e cf r :
  verdict l c e cf r !! "label" = Some l.
Proof. unfold verdict. by simplify_map_eq. Qed.

Lemma verdict_lookup_confidence l c e cf r :
  verdict l c e cf r !! "confidence" = Some c.
Proof. unfold verdict. by simplify_map_eq. Qed.

(* ================================================================== *)
(** ** Theorems on src/generator.py *)
(* ================================================================== *)

(** C2, as amended: for the empty claim string, [generate_explanation]
    returns [{label: Uncertain, confidence: 0.0, explanation: "Empty claim"}]
    at once, and the world is the one it was called in: whatever the
    generation model is, it has not been called. *)
Theorem generate_explanation_empty_claim
    {W : Type} {GM : GenerationModel W} {PL : PyLib}
    (evidence_texts : list string) (decoding_params : option dict) (w : W) :
  generate_explanation "" evidence_texts decoding_params w
    = (Ok empty_claim_verdict, w)
  /\ empty_claim_verdict !! "label" = Some (PStr "Uncertain")
  /\ empty_claim_verdict !! "confidence" = Some (PFloat 0.0)
  /\ empty_claim_verdict !! "explanation" = Some (PStr "Empty claim")
  /\ dom empty_claim_verdict = {["label"; "confidence"; "explanation"]}.
Proof.
  split; [reflexivity|].
  unfold empty_claim_verdict.
  split; [by simplify_map_eq|].
  split; [by simplify_map_eq|].
  split; [by simplify_map_eq|].
  rewrite !dom_insert_L, dom_empty_L. set_solver.
Qed.

(** C2, counterexample: the claim [" "] is whitespace only, yet the guard
    [if not claim] lets it through: the generation model is called (one event
    in the log) and the verdict is the parsed answer of the model. *)
Lemma generate_explanation_whitespace_claim :
  PyStr.strip " " = ""
  /\ fst (@generate_explanation world (Example.scripted_model "true")
            Example.example_pylib " " [] None world0)
     = Ok (verdict (PStr "True") (PFloat 0.8) (PStr "true") (PStr "") (PList []))
  /\ length (w_log (snd (@generate_explanation world (Example.scripted_model "true")
                           Example.example_pylib " " [] None world0))) = 1%nat
  /\ @generate_explanation world (Example.scripted_model "true")
       Example.example_pylib " " [] None world0
     <> (Ok empty_claim_verdict, world0).
Proof.
  split; [reflexivity|].
  split; [vm_compute; reflexivity|].
  split; [vm_compute; reflexivity|].
  intros H.
  apply (f_equal (fun p => length (w_log (snd p)))) in H.
  vm_compute in H. discriminate H.
Qed.

(** C8: with the claim "The Earth is flat." and the single evidence text
    "Scientific consensus confirms Earth is round.", rule b fires for every
    verdict handed to the correction pass: rule a does not match, rule c
    would match (the evidence contains "confirm") but is not reached, and
    the result carries the label Fake and the confidence 0.95. *)
Theorem earth_is_flat_scenario (parsed : dict) :
  let claim := "The Earth is flat." in
  let evidence := ["Scientific consensus confirms Earth is round."] in
  let evidence_joined := PyStr.lower (PyStr.join " " evidence) in
  fired_rule claim evidence = RuleB
  /\ cond_a evidence_joined = false
  /\ cond_c evidence_joined = true
  /\ exists d : dict,
       _correct_with_evidence parsed claim evidence = Ok d
       /\ d !! "label" = Some (PStr "Fake")
       /\ d !! "confidence" = Some (PFloat 0.95).
Proof.
  cbv zeta.
  split; [vm_compute; reflexivity|].
  split; [vm_compute; reflexivity|].
  split; [vm_compute; reflexivity|].
  rewrite correct_with_evidence_by_priority.
  unfold correction_by_priority, correction_rules.
  cbn [first_match spec_rule_a spec_rule_b rule_applies rule_name rule_action].
  replace (cond_a _) with false by (vm_compute; reflexivity).
  replace (cond_b _ _) with true by (vm_compute; reflexivity).
  cbn [snd]. eexists. split; [reflexivity|].
  unfold force_with_texts, force.
  split; by simplify_map_eq.
Qed.

(** C7: whenever the lower-cased joined evidence contains both "false" and
    "proves", the correction pass turns every parsed verdict into one with
    the label Fake: rule a fires, although the condition of rule c holds too.
    And on all inputs the [if]/[elif] chain of the code is the first-match
    evaluation of the rule table a, b, c, d, with e (no change) when none
    matches. *)
Theorem correction_rule_priority
    (parsed : dict) (claim : string) (evidence_texts : list string) :
  parsed_verdict parsed ->
  PyStr.contains "false" (PyStr.lower (PyStr.join " " evidence_texts)) = true ->
  PyStr.contains "proves" (PyStr.lower (PyStr.join " " evidence_texts)) = true ->
  (exists d : dict,
     _correct_with_evidence parsed claim evidence_texts = Ok d
     /\ d !! "label" = Some (PStr "Fake"))
  /\ fired_rule claim evidence_texts = RuleA
  /\ cond_c (PyStr.lower (PyStr.join " " evidence_texts)) = true
  /\ (forall (parsed' : dict) (claim' : string) (evidence' : list string),
        (fired_rule claim' evidence', _correct_with_evidence parsed' claim' evidence')
        = first_match [spec_rule_a; spec_rule_b; spec_rule_c; spec_rule_d]
            (PyStr.lower claim') (PyStr.lower (PyStr.join " " evidence')) parsed').
Proof.
  intros (l & e & cf & r & c & ->) Hfalse Hproves.
  pose proof (cond_a_false_term _ Hfalse) as Ha.
  repeat split.
  - unfold _correct_with_evidence. rewrite Ha.
    unfold dict_get.
    rewrite lookup_insert_ne by done.
    rewrite verdict_lookup_confidence.
    cbn [py_max num_of rbind].
    eexists. split; [reflexivity|].
    by simplify_map_eq.
  - rewrite fired_rule_conditions. cbv zeta. rewrite Ha. reflexivity.
  - unfold cond_c. rewrite Hproves. apply orb_true_r.
  - intros parsed' claim' evidence'.
    rewrite correct_with_evidence_by_priority.
    rewrite <- (fired_rule_any_parsed parsed').
    unfold correction_by_priority, correction_rules.
    by destruct (first_match _ _ _ _).
Qed.

(** C7, witness: a verdict parsed from free text and one evidence text that
    contains both words. *)
Lemma correction_rule_priority_witness :
  let parsed :=
    verdict (PStr "True") (PFloat 0.8) (PStr "true") (PStr "") (PList []) in
  let evidence := ["This is false: nothing proves it."] in
  PyStr.contains "false" (PyStr.lower (PyStr.join " " evidence)) = true
  /\ PyStr.contains "proves" (PyStr.lower (PyStr.join " " evidence)) = true
  /\ (exists d : dict,
        _correct_with_evidence parsed "Vaccines work." evidence = Ok d
        /\ d !! "label" = Some (PStr "Fake"))
  /\ fired_rule "Vaccines work." evidence = RuleA.
Proof.
  cbv zeta.
  split; [vm_compute; reflexivity|].
  split; [vm_compute; reflexivity|].
  destruct (correction_rule_priority
              (verdict (PStr "True") (PFloat 0.8) (PStr "true") (PStr "") (PList []))
              "Vaccines work." ["This is false: nothing proves it."])
    as (Hd & Hr & _).
  - unfold parsed_verdict. by repeat eexists.
  - vm_compute; reflexivity.
  - vm_compute; reflexivity.
  - split; [exact Hd | exact Hr].
Defined.

(** C10: when rule c or rule d fires, the correction pass succeeds and its
    result differs from the verdict it was given at the keys ["label"] and
    ["confidence"] only; in particular ["explanation"], ["counterfactual"]
    and ["reasoning"] are as they were. *)
Theorem correction_rules_c_d_frame
    (parsed : dict) (claim : string) (evidence_texts : list string) :
  fired_rule claim evidence_texts = RuleC
  \/ fired_rule claim evidence_texts = RuleD ->
  exists d : dict,
    _correct_with_evidence parsed claim evidence_texts = Ok d
    /\ same_but_label_confidence parsed d
    /\ d !! "explanation" = parsed !! "explanation"
    /\ d !! "counterfactual" = parsed !! "counterfactual"
    /\ d !! "reasoning" = parsed !! "reasoning".
Proof.
  intros Hfired.
  rewrite fired_rule_conditions in Hfired. cbv zeta in Hfired.
  unfold _correct_with_evidence.
  destruct (cond_a _); [by destruct Hfired|].
  destruct (cond_b _ _); [by destruct Hfired|].
  destruct (cond_c _).
  - eexists. split; [reflexivity|].
    repeat split; try by simplify_map_eq.
    intros k Hl Hc. by simplify_map_eq.
  - destruct (cond_d _); [|by destruct Hfired].
    eexists. split; [reflexivity|].
    repeat split; try by simplify_map_eq.
    intros k Hl Hc. by simplify_map_eq.
Qed.

(** C10, witness: rule c fires on an evidence text that contains "confirm". *)
Lemma correction_rules_c_d_frame_witness :
  exists d : dict,
    _correct_with_evidence
      (verdict (PStr "Fake") (PFloat 0.8) (PStr "why") (PStr "unless") (PList []))
      "Water is wet." ["Measurements confirm it."] = Ok d
    /\ d !! "explanation" = Some (PStr "why").
Proof.
  destruct (correction_rules_c_d_frame
              (verdict (PStr "Fake") (PFloat 0.8) (PStr "why") (PStr "unless") (PList []))
              "Water is wet." ["Measurements confirm it."])
    as (d & Hd & _ & He & _).
  - left. vm_compute; reflexivity.
  - exists d. split; [exact Hd|]. rewrite He. vm_compute; reflexivity.
Defined.

(** *** The label of the verdict *)

Lemma parse_output_shape {PL : PyLib} (text : string) :
  parsed_verdict (_parse_output text).
Proof.
  unfold _parse_output, try_except, parsed_verdict.
  destruct (PyStr.startswith _ _).
  - destruct (json_loads text) as [v|e]; cbn [rbind]; [|by repeat eexists].
    destruct (as_dict v) as [data|e]; cbn [rbind]; [|by repeat eexists].
    destruct (py_float _) as [c|e]; cbn [rbind]; by repeat eexists.
  - by repeat eexists.
Qed.






(* ================================================================== *)
(** ** Theorems on src/tao_optimizer.py *)
(* ================================================================== *)

Lemma Qltb_true x y : Qltb x y = true <-> (x < y)%Q.
Proof.
  unfold Qltb. rewrite negb_true_iff.
  destruct (Qle_bool y x) eqn:H.
  - apply Qle_bool_iff in H. split; [discriminate|]. intros ?. lra.
  - split; [|reflexivity]. intros _.
    destruct (Qlt_le_dec x y) as [?|Hle]; [assumption|].
    apply Qle_bool_iff in Hle. congruence.
Qed.

Lemma Qltb_false x y : Qltb x y = false <-> (y <= x)%Q.
Proof.
  unfold Qltb. rewrite negb_false_iff. apply Qle_bool_iff.
Qed.

Lemma round_half_even_bounds (x : Q) (lo hi : Z) :
  (inject_Z lo <= x <= inject_Z hi)%Q ->
  (lo <= round_half_even x <= hi)%Z.
Proof.
  intros [Hlo Hhi].
  assert (Hf1 : (lo <= Qfloor x)%Z).
  { rewrite <- (Qfloor_Z lo). by apply Qfloor_resp_le. }
  assert (Hf2 : (Qfloor x <= hi)%Z).
  { rewrite <- (Qfloor_Z hi). by apply Qfloor_resp_le. }
  assert (Hup : (1 # 2 <= x - inject_Z (Qfloor x))%Q -> (Qfloor x + 1 <= hi)%Z).
  { intros Hd.
    destruct (Z_lt_le_dec (Qfloor x) hi) as [?|Hge]; [lia|].
    rewrite Zle_Qle in Hge. lra. }
  unfold round_half_even.
  destruct (Qltb (x - inject_Z (Qfloor x)) (1 # 2)) eqn:H1; [lia|].
  apply Qltb_false in H1. specialize (Hup H1).
  destruct (Qltb (1 # 2) (x - inject_Z (Qfloor x))); [lia|].
  destruct (Z.even (Qfloor x)); lia.
Qed.

Lemma py_round_2_bounds (x : Q) (lo hi : Z) :
  (Qmake lo 100 <= x <= Qmake hi 100)%Q ->
  (Qmake lo 100 <= py_round x 2 <= Qmake hi 100)%Q.
Proof.
  intros [Hlo Hhi].
  change (py_round x 2)
    with (Qmake (round_half_even (x * inject_Z 100)) 100).
  destruct (round_half_even_bounds (x * inject_Z 100) lo hi) as [H1 H2].
  { unfold Qle in *. cbn in *. lia. }
  unfold Qle. cbn. lia.
Qed.

(** C6: for every random module that keeps the documented contract of
    [uniform] and [choice], and may raise, [optimize_generation] returns (it
    is a total function into dictionaries: no exception leaves it) a
    dictionary with temperature in [0.6, 0.9], num_beams in {2, 4, 6} and
    repetition_penalty in [1.0, 1.3]; when anything raises inside its [try]
    block, the dictionary is {temperature: 0.7, num_beams: 4,
    repetition_penalty: 1.2}. *)
Theorem optimize_generation_in_range
    {W : Type} {RM : RandomModule W} (HR : random_contract RM) (w : W) :
  params_in_range (fst (optimize_generation w))
  /\ (forall (e : exn) (w' : W),
        optimize_generation_body w = (Raise e, w') ->
        optimize_generation w = (fallback_decoding_params, w'))
  /\ fallback_decoding_params !! "temperature" = Some (PFloat 0.7)
  /\ fallback_decoding_params !! "num_beams" = Some (PInt 4)
  /\ fallback_decoding_params !! "repetition_penalty" = Some (PFloat 1.2).
Proof.
  assert (Hfb : params_in_range fallback_decoding_params).
  { exists 0.7%Q, 1.2%Q, 4%Z. unfold fallback_decoding_params.
    split; [by simplify_map_eq|].
    split; [by simplify_map_eq|].
    split; [by simplify_map_eq|].
    split; [split; unfold Qle; cbn; lia|].
    split; [right; left; reflexivity|].
    split; unfold Qle; cbn; lia. }
  split; [|split].
  - unfold optimize_generation, optimize_generation_body, bind, ret.
    destruct (random_uniform 0.6 0.9 w) as [[t|e] w1] eqn:H1; [|exact Hfb].
    destruct (random_choice [2; 4; 6]%Z w1) as [[b|e] w2] eqn:H2; [|exact Hfb].
    destruct (random_uniform 1.0 1.3 w2) as [[r|e] w3] eqn:H3; [|exact Hfb].
    cbn [fst].
    apply (uniform_range _ HR) in H1; [|unfold Qle; cbn; lia].
    apply (uniform_range _ HR) in H3; [|unfold Qle; cbn; lia].
    apply (choice_member _ HR) in H2.
    exists (py_round t 2), (py_round r 2), b.
    split; [by simplify_map_eq|].
    split; [by simplify_map_eq|].
    split; [by simplify_map_eq|].
    split; [|split].
    + destruct (py_round_2_bounds t 60 90) as [Ha Hb].
      { unfold Qle in *. cbn in *. lia. }
      unfold Qle in *. cbn in *. lia.
    + cbn in H2. intuition.
    + destruct (py_round_2_bounds r 100 130) as [Ha Hb].
      { unfold Qle in *. cbn in *. lia. }
      unfold Qle in *. cbn in *. lia.
  - intros e w' Hbody. unfold optimize_generation. by rewrite Hbody.
  - unfold fallback_decoding_params. repeat split; by simplify_map_eq.
Qed.

Lemma lcg_random_contract : random_contract Example.lcg_random.
Proof.
  split.
  - intros a b w x w' Hab H. cbn in H. injection H as <- _.
    set (k := (w_seed w mod 1000)%N).
    assert (Hk : (0 <= Z.of_N k < 1000)%Z).
    { pose proof (N.mod_upper_bound (w_seed w) 1000 ltac:(discriminate)) as Hm.
      fold k in Hm. clearbody k. lia. }
    assert (Hr0 : (0 <= Qmake (Z.of_N k) 1000)%Q) by (unfold Qle; cbn; lia).
    assert (Hr1 : (Qmake (Z.of_N k) 1000 <= 1)%Q) by (unfold Qle; cbn; lia).
    split; nra.
  - intros l w x w' H. cbv [random_choice Example.lcg_random] in H.
    destruct l as [|y l]; [discriminate|].
    injection H as <- _.
    refine (nth_In (y :: l) y
              (n := N.to_nat (w_seed w mod N.of_nat (length (y :: l)))) _).
    pose proof (N.mod_upper_bound (w_seed w) (N.of_nat (length (y :: l)))
                  ltac:(cbn [length]; lia)) as Hm.
    revert Hm. generalize (w_seed w mod N.of_nat (length (y :: l)))%N.
    intros k Hm. lia.
Qed.

Lemma broken_random_contract : random_contract Example.broken_random.
Proof. split; intros; discriminate. Qed.

(** C6, witness: the linear congruential generator keeps the contract and
    gives parameters in range; a random module that always raises keeps it
    too, and gives the fixed dictionary. *)
Lemma optimize_generation_in_range_witness :
  params_in_range (fst (@optimize_generation world Example.lcg_random world0))
  /\ @optimize_generation world Example.broken_random world0
     = (fallback_decoding_params, world0).
Proof.
  split.
  - apply (@optimize_generation_in_range world Example.lcg_random
             lcg_random_contract world0).
  - destruct (@optimize_generation_in_range world Example.broken_random
                broken_random_contract world0) as (_ & H & _).
    apply (H (Exn "RuntimeError" "no entropy")). reflexivity.
Defined.

(** C5: for every optimizer state, [continual_train] on the empty list
    returns the "no data" status, and the state (steps, updates, loss,
    last_update) and the world, hence the clock, are as before. *)
Theorem continual_train_empty_batch
    {W : Type} {CK : Clock W} (self : TAOOptimizer) (w : W) :
  continual_train self (PList []) w = ((no_data_status, self), w)
  /\ no_data_status = "No data provided for TAO training.".
Proof. split; reflexivity. Qed.

Lemma continual_train_nonempty
    {W : Type} {CK : Clock W} (self : TAOOptimizer) (b : pyval) (w : W) :
  nonempty_batch b ->
  let self' := snd (fst (continual_train self b w)) in
  updates (stats self') = (updates (stats self) + 1)%Z
  /\ loss (stats self') = loss_curve (updates (stats self) + 1)
  /\ steps (stats self') = (steps (stats self) + py_len b)%Z.
Proof.
  intros (x & l & ->). unfold continual_train.
  cbn [py_truthy is_list negb orb].
  destruct (time_time w) as [now w']. cbn. repeat split.
Qed.

Lemma continual_train_all_nonempty
    {W : Type} {CK : Clock W} (batches : list pyval) :
  forall (self : TAOOptimizer) (w : W),
    Forall nonempty_batch batches ->
    let final := fst (continual_train_all self batches w) in
    updates (stats final)
    = (updates (stats self) + Z.of_nat (length batches))%Z
    /\ (batches <> [] ->
        loss (stats final)
        = loss_curve (updates (stats self) + Z.of_nat (length batches))).
Proof.
  induction batches as [|b rest IH]; intros self w Hall.
  - cbn. split; [lia | congruence].
  - apply Forall_cons_1 in Hall as [Hb Hrest].
    pose proof (continual_train_nonempty self b w Hb) as (Hu & Hl & _).
    cbn [continual_train_all].
    destruct (continual_train self b w) as [[status self'] w'].
    cbn [fst snd] in Hu, Hl.
    specialize (IH self' w' Hrest). cbv zeta in IH. destruct IH as [IHu IHl].
    cbv zeta. rewrite IHu, Hu.
    split; [cbn [length]; lia|]. intros _.
    destruct rest as [|b' rest'].
    + cbn. rewrite Hl. reflexivity.
    + rewrite IHl by discriminate. rewrite Hu. f_equal. cbn [length]. lia.
Qed.

Lemma continual_train_loss_of_updates
    {W : Type} {CK : Clock W} (self : TAOOptimizer) (b : pyval) (w : W) :
  (0 <= updates (stats self))%Z ->
  loss (stats self) = loss_of_updates (updates (stats self)) ->
  let self' := snd (fst (continual_train self b w)) in
  (0 <= updates (stats self'))%Z
  /\ loss (stats self') = loss_of_updates (updates (stats self')).
Proof.
  intros Hpos Hinv. unfold continual_train.
  destruct (negb (py_truthy b) || negb (is_list b)); [by cbn|].
  destruct (time_time w) as [now w']. cbn. split; [lia|].
  unfold loss_of_updates.
  destruct (Z.eqb_spec (updates (stats self) + 1) 0); [lia | reflexivity].
Qed.

Lemma continual_train_all_loss_of_updates
    {W : Type} {CK : Clock W} (batches : list pyval) :
  forall (self : TAOOptimizer) (w : W),
    (0 <= updates (stats self))%Z ->
    loss (stats self) = loss_of_updates (updates (stats self)) ->
    let final := fst (continual_train_all self batches w) in
    (0 <= updates (stats final))%Z
    /\ loss (stats final) = loss_of_updates (updates (stats final)).
Proof.
  induction batches as [|b rest IH]; intros self w Hpos Hinv.
  - by cbn.
  - pose proof (continual_train_loss_of_updates self b w Hpos Hinv) as [Hp Hi].
    cbn [continual_train_all].
    destruct (continual_train self b w) as [[status self'] w'].
    cbn [fst snd] in Hp, Hi. by apply IH.
Qed.

(** C4, as amended: starting from a freshly constructed optimizer, after
    n >= 1 successive calls of [continual_train], each on a non-empty list,
    [updates] is n and [loss] is max(0.01, 0.5 - 0.05 * n), whatever the
    lists contain.  After any sequence of calls at all (empty batches and
    other arguments included) the loss is a function of [updates] alone:
    0.0 while [updates] is 0, the curve from then on. *)
Theorem continual_train_successive
    {W : Type} {CK : Clock W}
    (name : option string) (w0 w : W) (batches : list pyval) :
  let fresh := fresh_optimizer name w0 in
  let final := fst (continual_train_all fresh batches w) in
  (batches <> [] ->
   Forall nonempty_batch batches ->
   updates (stats final) = Z.of_nat (length batches)
   /\ loss (stats final) = loss_curve (Z.of_nat (length batches)))
  /\ loss (stats final) = loss_of_updates (updates (stats final)).
Proof.
  cbv zeta.
  assert (Hfresh : updates (stats (fresh_optimizer name w0)) = 0%Z
                   /\ loss (stats (fresh_optimizer name w0)) = 0.0%Q).
  { unfold fresh_optimizer, TAOOptimizer_init.
    destruct (time_time w0) as [now w1]. by cbn. }
  destruct Hfresh as [Hu Hl].
  split.
  - intros Hne Hall.
    pose proof (continual_train_all_nonempty batches
                  (fresh_optimizer name w0) w Hall) as [H1 H2].
    cbv zeta in H1, H2. rewrite Hu in H1, H2. cbn [Z.add] in H1, H2.
    split; [exact H1 | exact (H2 Hne)].
  - apply continual_train_all_loss_of_updates.
    + rewrite Hu. lia.
    + rewrite Hu, Hl. reflexivity.
Qed.

(** C4, witness: three calls on non-empty lists of different contents. *)
Lemma continual_train_successive_witness :
  let batches :=
    [PList [PStr "a"]; PList [PNone; PNone]; PList [PInt 7]] in
  let final :=
    fst (@continual_train_all world Example.ticking_clock
           (@fresh_optimizer world Example.ticking_clock None world0)
           batches world0) in
  updates (stats final) = 3%Z /\ loss (stats final) = loss_curve 3.
Proof.
  cbv zeta.
  apply (@continual_train_successive world Example.ticking_clock None world0 world0
           [PList [PStr "a"]; PList [PNone; PNone]; PList [PInt 7]]).
  - discriminate.
  - repeat constructor; unfold nonempty_batch; eauto.
Defined.

(** C4, counterexample: with n = 0 (the freshly constructed optimizer, no
    call yet) the loss is the constructor's 0.0, not max(0.01, 0.5) = 0.5. *)
Lemma fresh_optimizer_loss :
  let final :=
    fst (@continual_train_all world Example.ticking_clock
           (@fresh_optimizer world Example.ticking_clock None world0)
           [] world0) in
  updates (stats final) = 0%Z
  /\ loss (stats final) = 0.0%Q
  /\ (loss_curve 0 == 0.5)%Q
  /\ ~ (loss (stats final) == loss_curve 0)%Q.
Proof.
  cbv zeta. split; [reflexivity|]. split; [reflexivity|].
  split; [vm_compute; reflexivity|].
  vm_compute. discriminate.
Qed.

(* ================================================================== *)
(** ** Theorems on src/live_retriever.py *)
(* ================================================================== *)

Section SortDesc.
Context {A : Type}.
Implicit Types (x y : Q * A) (l : list (Q * A)).

Lemma insert_desc_perm x l : Permutation (insert_desc x l) (x :: l).
Proof.
  induction l as [|y r IH]; cbn [insert_desc]; [reflexivity|].
  destruct (Qltb (fst x) (fst y)); [|reflexivity].
  rewrite IH. apply perm_swap.
Qed.

Lemma sort_desc_perm l : Permutation (sort_desc l) l.
Proof.
  induction l as [|x r IH]; [reflexivity|].
  unfold sort_desc in *. cbn [fold_right].
  rewrite insert_desc_perm. by constructor.
Qed.

Lemma insert_desc_sorted x l :
  StronglySorted key_ge l -> StronglySorted key_ge (insert_desc x l).
Proof.
  induction 1 as [|y r Hr IH Hy]; cbn [insert_desc].
  - repeat constructor.
  - destruct (Qltb (fst x) (fst y)) eqn:Hxy.
    + apply Qltb_true in Hxy.
      constructor; [exact IH|].
      rewrite (insert_desc_perm x r). constructor; [|exact Hy].
      unfold key_ge. lra.
    + apply Qltb_false in Hxy.
      constructor; [by constructor|].
      constructor; [exact Hxy|].
      eapply Forall_impl; [exact Hy|].
      unfold key_ge. intros z Hz. cbn beta in Hz. lra.
Qed.

Lemma sort_desc_sorted l : StronglySorted key_ge (sort_desc l).
Proof.
  induction l as [|x r IH]; [constructor|].
  unfold sort_desc in *. cbn [fold_right]. by apply insert_desc_sorted.
Qed.

(** Stability: the elements with a given key keep their order. *)
Lemma insert_desc_stable (s : Q) x l :
  List.filter (key_is s) (insert_desc x l) = List.filter (key_is s) (x :: l).
Proof.
  induction l as [|y r IH]; cbn [insert_desc]; [reflexivity|].
  destruct (Qltb (fst x) (fst y)) eqn:Hxy; [|reflexivity].
  apply Qltb_true in Hxy.
  cbn [List.filter] in *. rewrite IH.
  unfold key_is.
  destruct (Qeq_bool (fst x) s) eqn:Hx, (Qeq_bool (fst y) s) eqn:Hy;
    try reflexivity.
  apply Qeq_bool_iff in Hx, Hy. lra.
Qed.

Lemma sort_desc_stable (s : Q) l :
  List.filter (key_is s) (sort_desc l) = List.filter (key_is s) l.
Proof.
  induction l as [|x r IH]; [reflexivity|].
  unfold sort_desc in *. cbn [fold_right].
  rewrite insert_desc_stable. cbn [List.filter]. by rewrite IH.
Qed.

End SortDesc.

Lemma rmap_Forall2 {A B} (f : A -> result B) (l : list A) (ys : list B) :
  rmap f l = Ok ys -> Forall2 (fun x y => f x = Ok y) l ys.
Proof.
  revert ys. induction l as [|x r IH]; intros ys H; cbn [rmap] in H.
  - injection H as <-. constructor.
  - destruct (f x) as [y|e] eqn:Hx; cbn [rbind] in H; [|discriminate].
    destruct (rmap f r) as [ys'|e]; cbn [rbind] in H; [|discriminate].
    injection H as <-. constructor; auto.
Qed.

Lemma rmap_key_of_score (l : list evidence_item) :
  Forall (fun e => is_Some (ev_score e)) l ->
  exists keyed : list (Q * evidence_item),
    rmap key_of_score l = Ok keyed
    /\ map snd keyed = l
    /\ Forall keyed_by_score keyed.
Proof.
  induction 1 as [|e r [s Hs] _ (keyed & Hk & Hm & Hf)].
  - exists []. repeat split. constructor.
  - exists ((s, e) :: keyed). cbn [rmap]. unfold key_of_score at 1.
    rewrite Hs, Hk. cbn [rbind map snd]. rewrite Hm.
    repeat split. by constructor.
Qed.

Lemma keyed_sorted (keyed : list (Q * evidence_item)) :
  Forall keyed_by_score keyed ->
  StronglySorted key_ge keyed ->
  StronglySorted score_ge (map snd keyed).
Proof.
  intros Hf Hs. induction Hs as [|p r Hr IH Hp]; [constructor|].
  apply Forall_cons_1 in Hf as [Hpk Hrk].
  cbn [map]. constructor; [by apply IH|].
  apply Forall_map. (* stdpp: Forall over map *)
  apply Forall_forall. intros q Hq.
  rewrite Forall_forall in Hp, Hrk.
  specialize (Hp q Hq). specialize (Hrk q Hq).
  unfold score_ge, keyed_by_score, key_ge in *. cbn [compose].
  by rewrite Hpk, Hrk.
Qed.

Lemma keyed_filter (s : Q) (keyed : list (Q * evidence_item)) :
  Forall keyed_by_score keyed ->
  with_score s (map snd keyed) = map snd (List.filter (key_is s) keyed).
Proof.
  unfold with_score.
  induction 1 as [|p r Hp _ IH]; [reflexivity|].
  cbn [map List.filter]. unfold has_score at 1, key_is at 1.
  rewrite Hp. destruct (Qeq_bool (fst p) s); cbn [map]; by rewrite IH.
Qed.

Lemma score_pass_cosine {EM : Embedder}
    (query : string) (evidence : list evidence_item) (scores : list Q) :
  score_pass query evidence = Ok scores ->
  Forall2 (fun e s => cosine_similarity query (ev_text e) = Ok s) evidence scores.
Proof.
  unfold score_pass, cosine_similarity.
  destruct (encode query) as [q|e]; cbn [rbind]; [|discriminate].
  revert scores. induction evidence as [|e r IH]; intros scores H.
  - cbn in H. injection H as <-. constructor.
  - cbn [map rmap] in H.
    destruct (encode (ev_text e)) as [t|ex] eqn:Ht; cbn [rbind] in H;
      [|discriminate].
    destruct (rmap encode (map ev_text r)) as [ts|ex]; cbn [rbind] in *;
      [|discriminate].
    cbn [map rmap] in H.
    destruct (np_dot (normalize_L2 t) (normalize_L2 q)) as [s|ex] eqn:Hs;
      cbn [rbind] in H; [|discriminate].
    destruct (rmap _ (map normalize_L2 ts)) as [ss|ex] eqn:Hss;
      cbn [rbind] in H; [|discriminate].
    injection H as <-. constructor.
    + rewrite Ht. cbn [rbind]. exact Hs.
    + by apply IH.
Qed.

Lemma set_scores_cosine {EM : Embedder}
    (query : string) (evidence : list evidence_item) (scores : list Q) :
  Forall2 (fun e s => cosine_similarity query (ev_text e) = Ok s) evidence scores ->
  Forall2 (scored_by_cosine query) evidence (zip_with set_score evidence scores)
  /\ Forall (fun e => is_Some (ev_score e)) (zip_with set_score evidence scores).
Proof.
  induction 1 as [|e s r ss Hs _ [IH1 IH2]]; cbn [zip_with].
  - split; constructor.
  - split; constructor; auto.
    unfold scored_by_cosine. cbn. eauto.
Qed.

Lemma sorted_by_score_desc_keyed
    (evidence : list evidence_item) (keyed : list (Q * evidence_item)) :
  rmap key_of_score evidence = Ok keyed ->
  sorted_by_score_desc evidence = Ok (map snd (sort_desc keyed)).
Proof.
  intros H. unfold sorted_by_score_desc.
  destruct evidence as [|e [|e' r]].
  - cbn in H. by injection H as <-.
  - cbn [rmap] in H.
    destruct (key_of_score e) as [[s x]|ex] eqn:He; cbn [rbind] in H;
      [|discriminate].
    injection H as <-. unfold key_of_score in He.
    destruct (ev_score e); [|discriminate]. by injection He as <- <-.
  - by rewrite H.
Qed.

Lemma with_score_take (s : Q) (n : nat) (l : list evidence_item) :
  with_score s (take n l) `prefix_of` with_score s l.
Proof.
  unfold with_score. revert n. induction l as [|e r IH]; intros [|n]; cbn.
  - reflexivity.
  - reflexivity.
  - apply prefix_nil.
  - destruct (has_score s e); [apply prefix_cons|]; apply IH.
Qed.

Lemma StronglySorted_take {A} (R : A -> A -> Prop) (n : nat) (l : list A) :
  StronglySorted R l -> StronglySorted R (take n l).
Proof.
  intros H. revert n. induction H as [|x r Hr IH Hx]; intros [|n]; cbn;
    try constructor.
  - apply IH.
  - apply Forall_take. exact Hx.
Qed.

(** C3: when the concatenation of the three adapter answers is not empty and
    the scoring pass succeeds, [retrieve] returns the first top_k items of
    [ranked], for a query that reaches the adapters (an empty one returns
    before they are called) and a count top_k >= 0 (the default is 5,
    [analyze] passes 6), where
    [ranked] is the concatenation with every score overwritten by the cosine
    similarity of the item's text with the query, reordered by descending
    score, items of equal score in the order of the concatenation; so the
    result has at most top_k items, is in descending order of score, and
    lists items of equal score in concatenation order. *)
Theorem retrieve_ranked
    {W : Type} {ES : EvidenceSources W} {EM : Embedder}
    (query : string) (top_k : Z) (w w1 w2 w3 : W)
    (faiss wiki news : list evidence_item) (scores : list Q) :
  query <> "" ->
  _search_faiss query top_k w = (faiss, w1) ->
  _wikipedia_search query 2 w1 = (wiki, w2) ->
  _newsapi_search query 3 w2 = (news, w3) ->
  faiss ++ wiki ++ news <> [] ->
  score_pass query (faiss ++ wiki ++ news) = Ok scores ->
  (0 <= top_k)%Z ->
  let evidence := faiss ++ wiki ++ news in
  let scored := zip_with set_score evidence scores in
  exists ranked : list evidence_item,
    retrieve query top_k w = (take (Z.to_nat top_k) ranked, w3)
    /\ (Z.of_nat (length (take (Z.to_nat top_k) ranked)) <= top_k)%Z
    /\ Forall2 (scored_by_cosine query) evidence scored
    /\ Permutation ranked scored
    /\ StronglySorted score_ge ranked
    /\ (forall s : Q, with_score s ranked = with_score s scored)
    /\ StronglySorted score_ge (take (Z.to_nat top_k) ranked)
    /\ (forall s : Q,
          with_score s (take (Z.to_nat top_k) ranked)
            `prefix_of` with_score s scored).
Proof.
  intros Hq Hf Hw Hn Hne Hscore Hk. cbv zeta.
  pose proof (score_pass_cosine _ _ _ Hscore) as Hcos.
  destruct (set_scores_cosine _ _ _ Hcos) as [Hby Hsome].
  destruct (rmap_key_of_score _ Hsome) as (keyed & Hkeyed & Hmap & Hkb).
  pose proof (sorted_by_score_desc_keyed _ _ Hkeyed) as Hsorted.
  assert (Hkb' : Forall keyed_by_score (sort_desc keyed)).
  { by rewrite (sort_desc_perm keyed). }
  exists (map snd (sort_desc keyed)).
  split; [|split; [|split; [|split; [|split; [|split; [|split]]]]]].
  - unfold retrieve.
    destruct query as [|c query']; [contradiction|].
    cbn [PyStr.truthy String.eqb negb].
    rewrite Hf. cbn [app]. rewrite Hw, Hn. rewrite <- app_assoc.
    destruct (faiss ++ wiki ++ news) as [|e0 rest] eqn:Hev; [contradiction|].
    rewrite Hscore, Hsorted.
    unfold slice_to. destruct (Z.leb_spec 0 top_k); [reflexivity | lia].
  - rewrite length_take. lia.
  - exact Hby.
  - rewrite <- Hmap. apply Permutation_map, sort_desc_perm.
  - apply keyed_sorted; [exact Hkb' | apply sort_desc_sorted].
  - intros s. rewrite <- Hmap.
    rewrite !keyed_filter by assumption. by rewrite sort_desc_stable.
  - apply StronglySorted_take, keyed_sorted;
      [exact Hkb' | apply sort_desc_sorted].
  - intros s. etrans; [apply with_score_take|].
    rewrite <- Hmap.
    rewrite !keyed_filter by assumption. by rewrite sort_desc_stable.
Qed.

(** C3, witness: four items, two of them with the same score as the query's
    best match, top_k = 3. *)
Lemma retrieve_ranked_witness :
  exists ranked : list evidence_item,
    fst (@retrieve world Example.sample_sources Example.unit_embedder
           "xyz" 3 world0) = take 3 ranked
    /\ map ev_text (take 3 ranked) = ["aaa"; "cccccc"; "bb"]
    /\ StronglySorted score_ge (take 3 ranked).
Proof.
  edestruct (@retrieve_ranked world Example.sample_sources Example.unit_embedder
               "xyz" 3 world0)
    as (ranked & Hret & _ & _ & _ & _ & _ & Hsorted & _).
  - discriminate.
  - reflexivity.
  - reflexivity.
  - reflexivity.
  - discriminate.
  - vm_compute. reflexivity.
  - lia.
  - change (Z.to_nat 3) with 3%nat in *.
    apply (f_equal fst) in Hret. cbn [fst] in Hret.
    exists ranked. split; [exact Hret|]. split; [|exact Hsorted].
    rewrite <- Hret. vm_compute. reflexivity.
Defined.

(* ================================================================== *)
(** ** Lemmas on [str.strip] *)
(* ================================================================== *)

Lemma isspace2_lead c1 c2 :
  PyStr.isspace2 c1 c2 = true -> PyStr.isspace c1 = false.
Proof.
  unfold PyStr.isspace2, PyStr.isspace.
  generalize (Ascii.N_of_ascii c1), (Ascii.N_of_ascii c2). intros n1 n2 H.
  apply andb_true_iff in H as [H1%N.eqb_eq _]. by subst.
Qed.

Lemma isspace3_lead c1 c2 c3 :
  PyStr.isspace3 c1 c2 c3 = true ->
  PyStr.isspace c1 = false /\ PyStr.isspace2 c1 c2 = false.
Proof.
  unfold PyStr.isspace3, PyStr.isspace2, PyStr.isspace.
  generalize (Ascii.N_of_ascii c1), (Ascii.N_of_ascii c2),
    (Ascii.N_of_ascii c3). intros n1 n2 n3 H.
  assert (Hn : (n1 = 225 \/ n1 = 226 \/ n1 = 227)%N).
  { repeat (apply orb_true_iff in H as [H|H]);
      repeat (apply andb_true_iff in H as [H ?]);
      apply N.eqb_eq in H; auto. }
  by destruct Hn as [->|[->| ->]].
Qed.

Lemma lstrip_blank_length (n : nat) (s : string) :
  (String.length s <= n)%nat -> PyStr.lstrip s = "" -> PyStr.blank s.
Proof.
  revert s. induction n as [|n IH]; intros s Hn.
  - destruct s; [constructor | cbn in Hn; lia].
  - destruct s as [|c1 r1]; [constructor|]. cbn [String.length] in Hn.
    cbn [PyStr.lstrip]. destruct (PyStr.isspace c1) eqn:H1.
    { intros H. apply PyStr.blank_1; [done | apply IH; [lia | done]]. }
    destruct r1 as [|c2 r2]; [done|]. cbn [String.length] in Hn.
    destruct (PyStr.isspace2 c1 c2) eqn:H2.
    { intros H. apply PyStr.blank_2; [done | apply IH; [lia | done]]. }
    destruct r2 as [|c3 r3]; [done|]. cbn [String.length] in Hn.
    destruct (PyStr.isspace3 c1 c2 c3) eqn:H3; [|done].
    intros H. apply PyStr.blank_3; [done | apply IH; [lia | done]].
Qed.

Lemma blank_lstrip (s : string) : PyStr.blank s -> PyStr.lstrip s = "".
Proof.
  induction 1 as [|c r H _ IH|c1 c2 r H _ IH|c1 c2 c3 r H _ IH].
  - done.
  - cbn [PyStr.lstrip]. by rewrite H.
  - cbn [PyStr.lstrip]. by rewrite (isspace2_lead _ _ H), H.
  - destruct (isspace3_lead _ _ _ H) as [H1 H2].
    cbn [PyStr.lstrip]. by rewrite H1, H2, H.
Qed.

Lemma lstrip_blank (s : string) : PyStr.lstrip s = "" <-> PyStr.blank s.
Proof.
  split; [by apply (lstrip_blank_length (String.length s)) | apply blank_lstrip].
Qed.

Lemma lstrip_idempotent_length (n : nat) (s : string) :
  (String.length s <= n)%nat -> PyStr.lstrip (PyStr.lstrip s) = PyStr.lstrip s.
Proof.
  revert s. induction n as [|n IH]; intros s Hn.
  - destruct s; [done | cbn in Hn; lia].
  - destruct s as [|c1 r1]; [done|]. cbn [String.length] in Hn.
    cbn [PyStr.lstrip]. destruct (PyStr.isspace c1) eqn:H1.
    { apply IH. lia. }
    destruct r1 as [|c2 r2].
    { cbn [PyStr.lstrip]. by rewrite H1. }
    cbn [String.length] in Hn.
    destruct (PyStr.isspace2 c1 c2) eqn:H2.
    { apply IH. lia. }
    destruct r2 as [|c3 r3].
    { cbn [PyStr.lstrip]. by rewrite H1, H2. }
    cbn [String.length] in Hn.
    destruct (PyStr.isspace3 c1 c2 c3) eqn:H3.
    { apply IH. lia. }
    cbn [PyStr.lstrip]. by rewrite H1, H2, H3.
Qed.

Lemma rstrip_empty (s : string) : PyStr.rstrip s = "" <-> PyStr.lstrip s = "".
Proof.
  destruct s as [|c r]; [done|].
  change (PyStr.rstrip (String c r)) with
    (if String.eqb (PyStr.lstrip (String c r)) ""
     then "" else String c (PyStr.rstrip r)).
  destruct (String.eqb_spec (PyStr.lstrip (String c r)) "") as [->|Hne].
  - done.
  - split; [done | intros H; by destruct Hne].
Qed.

(** [text.strip()] is empty exactly for the texts of white space only. *)
Lemma strip_blank (s : string) : PyStr.strip s = "" <-> PyStr.blank s.
Proof.
  unfold PyStr.strip. rewrite rstrip_empty.
  rewrite (lstrip_idempotent_length (String.length s)) by lia.
  apply lstrip_blank.
Qed.

Lemma strip_examples :
  PyStr.strip "  flat earth " = "flat earth"
  /\ PyStr.strip (Example.nbsp ++ "a b" ++ Example.ideographic_space) = "a b"
  /\ PyStr.strip Example.blank_text = "".
Proof. split; [reflexivity | split; reflexivity]. Qed.

(* ================================================================== *)
(** ** Theorems on src/rag_pipeline.py *)
(* ================================================================== *)

(** C9: on an input that is empty or made of white space only (any
    characters of [str.isspace], not the ASCII ones alone), [analyze] returns
    the fixed result with label Uncertain, confidence 0.0, explanation
    "Empty input." and an empty [_evidence] list; the pipeline (hence the
    state of the optimizer) and the world are as before, whatever the
    retriever, the optimizer and the generator are: none of them is called. *)
Theorem analyze_empty_input
    {W : Type} {ES : EvidenceSources W} {EM : Embedder}
    {RM : RandomModule W} {CK : Clock W}
    {GM : GenerationModel W} {PL : PyLib}
    (self : RAGPipeline) (text : string) (w : W) :
  PyStr.blank text ->
  analyze self text w = ((empty_input_result, self), w)
  /\ empty_input_result !! "label" = Some (PStr "Uncertain")
  /\ empty_input_result !! "confidence" = Some (PFloat 0.0)
  /\ empty_input_result !! "explanation" = Some (PStr "Empty input.")
  /\ empty_input_result !! "_evidence" = Some (PList []).
Proof.
  intros Hstrip%strip_blank. split.
  - unfold analyze. rewrite Hstrip.
    cbn [PyStr.truthy String.eqb negb]. rewrite orb_true_r. reflexivity.
  - unfold empty_input_result.
    split; [by simplify_map_eq|].
    split; [by simplify_map_eq|].
    split; by simplify_map_eq.
Qed.

(** C9, witness: a space, a no-break space, an ideographic space and a tab,
    on a pipeline with all its collaborators. *)
Lemma analyze_empty_input_witness :
  PyStr.blank Example.blank_text
  /\ @analyze world Example.sample_sources Example.unit_embedder
       Example.lcg_random Example.ticking_clock
       (Example.scripted_model "true") Example.example_pylib
       Example.full_pipeline Example.blank_text world0
     = ((empty_input_result, Example.full_pipeline), world0).
Proof.
  split; [apply strip_blank; reflexivity|].
  apply (@analyze_empty_input world Example.sample_sources Example.unit_embedder
           Example.lcg_random Example.ticking_clock
           (Example.scripted_model "true") Example.example_pylib
           Example.full_pipeline Example.blank_text world0).
  apply strip_blank. reflexivity.
Defined.

(* ================================================================== *)
(** ** Further properties of src/generator.py *)
(* ================================================================== *)

Lemma py_max_again (a c : pyval) :
  py_max a (PFloat 0.9) = Ok c -> py_max c (PFloat 0.9) = Ok c.
Proof.
  unfold py_max. destruct (num_of a) as [x|] eqn:Ha; [|discriminate].
  cbn [num_of]. destruct (Qltb x 0.9) eqn:Hx; intros H; injection H as <-.
  - cbn [num_of]. by destruct (Qltb 0.9 0.9).
  - by rewrite Ha, Hx.
Qed.

(** X1: with no evidence text at all no correction rule can match: the
    correction pass returns the verdict it was given, for every claim. *)
Theorem correction_without_evidence (parsed : dict) (claim : string) :
  _correct_with_evidence parsed claim [] = Ok parsed
  /\ fired_rule claim [] = RuleE.
Proof.
  assert (Hb : forall cl, cond_b cl (PyStr.lower (PyStr.join " " [])) = false).
  { intros cl. reflexivity. }
  split.
  - unfold _correct_with_evidence.
    replace (cond_a _) with false by (vm_compute; reflexivity).
    rewrite Hb.
    replace (cond_c _) with false by (vm_compute; reflexivity).
    replace (cond_d _) with false by (vm_compute; reflexivity).
    reflexivity.
  - rewrite fired_rule_conditions. cbv zeta.
    replace (cond_a _) with false by (vm_compute; reflexivity).
    rewrite Hb.
    replace (cond_c _) with false by (vm_compute; reflexivity).
    replace (cond_d _) with false by (vm_compute; reflexivity).
    reflexivity.
Qed.

Lemma insert2_absorb (m : dict) (k1 k2 : string) (v1 v2 : pyval) :
  m !! k1 = Some v1 -> m !! k2 = Some v2 ->
  <[k2 := v2]> (<[k1 := v1]> m) = m.
Proof. intros H1 H2. by rewrite (insert_id m k1 v1 H1), (insert_id m k2 v2 H2). Qed.

Lemma insert4_absorb (m : dict) (k1 k2 k3 k4 : string) (v1 v2 v3 v4 : pyval) :
  m !! k1 = Some v1 -> m !! k2 = Some v2 ->
  m !! k3 = Some v3 -> m !! k4 = Some v4 ->
  <[k4 := v4]> (<[k3 := v3]> (<[k2 := v2]> (<[k1 := v1]> m))) = m.
Proof.
  intros H1 H2 H3 H4.
  by rewrite (insert2_absorb m k1 k2 v1 v2 H1 H2),
             (insert2_absorb m k3 k4 v3 v4 H3 H4).
Qed.

(** X2: the correction pass is idempotent: running it again, on its own
    result and with the same claim and evidence, changes nothing. *)
Theorem correction_idempotent
    (parsed d : dict) (claim : string) (evidence_texts : list string) :
  _correct_with_evidence parsed claim evidence_texts = Ok d ->
  _correct_with_evidence d claim evidence_texts = Ok d.
Proof.
  unfold _correct_with_evidence.
  destruct (cond_a _).
  { destruct (py_max _ _) as [c|e] eqn:Hc; cbn [rbind]; [|discriminate].
    intros H. injection H as <-.
    unfold dict_get at 1.
    rewrite lookup_insert_ne by done.
    rewrite lookup_insert_ne by done.
    rewrite lookup_insert_ne by done.
    rewrite lookup_insert_eq.
    rewrite (py_max_again _ _ Hc). cbn [rbind]. f_equal.
    apply insert4_absorb; by simplify_map_eq. }
  destruct (cond_b _ _).
  { intros H. injection H as <-. f_equal.
    apply insert4_absorb; by simplify_map_eq. }
  destruct (cond_c _).
  { intros H. injection H as <-. f_equal.
    apply insert2_absorb; by simplify_map_eq. }
  destruct (cond_d _).
  { intros H. injection H as <-. f_equal.
    apply insert2_absorb; by simplify_map_eq. }
  auto.
Qed.

(** X2, witness: rule a on a parsed verdict, then once more. *)
Lemma correction_idempotent_witness :
  exists d : dict,
    _correct_with_evidence
      (verdict (PStr "True") (PFloat 0.8) (PStr "why") (PStr "") (PList []))
      "Vaccines work." ["A debunked hoax."] = Ok d
    /\ _correct_with_evidence d "Vaccines work." ["A debunked hoax."] = Ok d.
Proof.
  destruct (_correct_with_evidence
              (verdict (PStr "True") (PFloat 0.8) (PStr "why") (PStr "") (PList []))
              "Vaccines work." ["A debunked hoax."]) as [d|e] eqn:H.
  - exists d. split; [reflexivity|].
    exact (correction_idempotent _ d "Vaccines work." ["A debunked hoax."] H).
  - vm_compute in H. discriminate H.
Defined.

Lemma fired_rule_a claim evidence_texts :
  fired_rule claim evidence_texts = RuleA ->
  cond_a (PyStr.lower (PyStr.join " " evidence_texts)) = true.
Proof.
  rewrite fired_rule_conditions. cbv zeta.
  destruct (cond_a _); [reflexivity|].
  destruct (cond_b _ _); [discriminate|].
  destruct (cond_c _); [discriminate|].
  destruct (cond_d _); discriminate.
Qed.

(** X3: when a correction rule fires, the label of the result is the rule's,
    whatever the generation model answered: two parsed verdicts come out with
    the same label, and, for the rules b, c and d, with the same confidence. *)
Theorem correction_overrides_generation
    (p1 p2 : dict) (claim : string) (evidence_texts : list string) :
  parsed_verdict p1 -> parsed_verdict p2 ->
  fired_rule claim evidence_texts <> RuleE ->
  exists d1 d2 : dict,
    _correct_with_evidence p1 claim evidence_texts = Ok d1
    /\ _correct_with_evidence p2 claim evidence_texts = Ok d2
    /\ d1 !! "label" = d2 !! "label"
    /\ (fired_rule claim evidence_texts <> RuleA ->
        d1 !! "confidence" = d2 !! "confidence").
Proof.
  intros (l1 & e1 & cf1 & r1 & c1 & ->) (l2 & e2 & cf2 & r2 & c2 & ->).
  rewrite fired_rule_conditions. cbv zeta.
  unfold _correct_with_evidence.
  destruct (cond_a _).
  { intros _. unfold dict_get.
    rewrite !lookup_insert_ne by done. rewrite !verdict_lookup_confidence.
    cbn [py_max num_of rbind].
    do 2 eexists. split; [reflexivity|]. split; [reflexivity|].
    split; [by simplify_map_eq | congruence]. }
  destruct (cond_b _ _).
  { intros _. do 2 eexists. split; [reflexivity|]. split; [reflexivity|].
    split; [by simplify_map_eq | intros _; by simplify_map_eq]. }
  destruct (cond_c _).
  { intros _. do 2 eexists. split; [reflexivity|]. split; [reflexivity|].
    split; [by simplify_map_eq | intros _; by simplify_map_eq]. }
  destruct (cond_d _); [|congruence].
  intros _. do 2 eexists. split; [reflexivity|]. split; [reflexivity|].
  split; [by simplify_map_eq | intros _; by simplify_map_eq].
Qed.

(** X3, witness: rule d against a "True" and a "Fake" verdict. *)
Lemma correction_overrides_generation_witness :
  exists d1 d2 : dict,
    _correct_with_evidence
      (verdict (PStr "True") (PFloat 0.8) (PStr "a") (PStr "") (PList []))
      "It rains." ["The data are unclear."] = Ok d1
    /\ _correct_with_evidence
         (verdict (PStr "Fake") (PFloat 0.5) (PStr "b") (PStr "") (PList []))
         "It rains." ["The data are unclear."] = Ok d2
    /\ d1 !! "label" = d2 !! "label".
Proof.
  destruct (correction_overrides_generation
              (verdict (PStr "True") (PFloat 0.8) (PStr "a") (PStr "") (PList []))
              (verdict (PStr "Fake") (PFloat 0.5) (PStr "b") (PStr "") (PList []))
              "It rains." ["The data are unclear."])
    as (d1 & d2 & H1 & H2 & Hl & _).
  - unfold parsed_verdict. by repeat eexists.
  - unfold parsed_verdict. by repeat eexists.
  - vm_compute. discriminate.
  - exists d1, d2. auto.
Defined.

(** X4: rule a never lowers the confidence.  [max(c, 0.9)] is 0.9 exactly
    when the old confidence [c] is below 0.9; when it is not below 0.9 the
    old confidence is handed back as it is (so would be a confidence that
    compares with nothing, as NaN does, were it in the model).  The new
    confidence is never below the old one. *)
Theorem rule_a_never_lowers_confidence
    (l e cf r : pyval) (c : Q) (claim : string) (evidence_texts : list string) :
  fired_rule claim evidence_texts = RuleA ->
  exists (d : dict) (c' : Q),
    _correct_with_evidence (verdict l (PFloat c) e cf r) claim evidence_texts
    = Ok d
    /\ d !! "confidence" = Some (PFloat c')
    /\ ~ (c' < c)%Q
    /\ ((c < 0.9)%Q /\ c' = 0.9%Q \/ ~ (c < 0.9)%Q /\ c' = c).
Proof.
  intros Ha%fired_rule_a.
  unfold _correct_with_evidence. rewrite Ha.
  unfold dict_get. rewrite lookup_insert_ne by done.
  rewrite verdict_lookup_confidence. cbn [py_max num_of rbind].
  destruct (Qltb c 0.9) eqn:Hc.
  - apply Qltb_true in Hc.
    exists (<["counterfactual" :=
                PStr "If verified empirical data supported the claim, it could be true."]>
              (<["explanation" :=
                   PStr "Evidence indicates the claim contradicts scientific consensus."]>
                 (<["confidence" := PFloat 0.9]>
                    (<["label" := PStr "Fake"]> (verdict l (PFloat c) e cf r))))),
      0.9%Q.
    split; [reflexivity|]. split; [by simplify_map_eq|].
    split; [lra|]. left. split; [exact Hc | reflexivity].
  - apply Qltb_false in Hc.
    exists (<["counterfactual" :=
                PStr "If verified empirical data supported the claim, it could be true."]>
              (<["explanation" :=
                   PStr "Evidence indicates the claim contradicts scientific consensus."]>
                 (<["confidence" := PFloat c]>
                    (<["label" := PStr "Fake"]> (verdict l (PFloat c) e cf r))))),
      c.
    split; [reflexivity|]. split; [by simplify_map_eq|].
    split; [lra|]. right. split; [lra | reflexivity].
Qed.

(** X4, witness: a confidence of 0.99 survives rule a. *)
Lemma rule_a_never_lowers_confidence_witness :
  exists (d : dict) (c' : Q),
    _correct_with_evidence
      (verdict (PStr "True") (PFloat 0.99) (PStr "a") (PStr "") (PList []))
      "It rains." ["This is false."] = Ok d
    /\ d !! "confidence" = Some (PFloat c') /\ c' = 0.99%Q.
Proof.
  destruct (rule_a_never_lowers_confidence (PStr "True") (PStr "a") (PStr "")
              (PList []) 0.99 "It rains." ["This is false."])
    as (d & c' & Hd & Hc & _ & [[Hlt _]|[_ Heq]]).
  - vm_compute. reflexivity.
  - exfalso. revert Hlt. unfold Qlt. cbn. lia.
  - exists d, c'. auto.
Defined.

(** X5: when the raw output is a structured object whose ["confidence"] is
    null, a list or an object, [float()] raises and the whole answer is
    discarded: the verdict is the fallback (label Uncertain, confidence 0.5,
    explanation the stripped raw text), whatever label the object carried. *)
Theorem parse_output_unusable_confidence
    {PL : PyLib} (text : string) (data : dict) (v : pyval) :
  PyStr.startswith "{" (PyStr.strip text) = true ->
  json_loads text = Ok (PDict data) ->
  data !! "confidence" = Some v ->
  v = PNone \/ (exists l, v = PList l) \/ (exists d, v = PDict d) ->
  _parse_output text = fallback_verdict text
  /\ fallback_verdict text !! "label" = Some (PStr "Uncertain")
  /\ fallback_verdict text !! "confidence" = Some (PFloat 0.5)
  /\ fallback_verdict text !! "explanation" = Some (PStr (PyStr.strip text)).
Proof.
  intros Hstart Hjson Hconf Hv.
  split.
  - unfold _parse_output. rewrite Hstart, Hjson. cbn [as_dict rbind].
    unfold dict_get. rewrite Hconf.
    destruct Hv as [->|[[l ->]|[d ->]]]; reflexivity.
  - unfold fallback_verdict.
    rewrite verdict_lookup_label, verdict_lookup_confidence.
    split; [reflexivity|]. split; [reflexivity|].
    unfold verdict. by simplify_map_eq.
Qed.

(** X5, witness: the answer [{"label": "Fake", "confidence": null}]. *)
Lemma parse_output_unusable_confidence_witness :
  @_parse_output Example.example_pylib Example.raw_null_confidence
  = fallback_verdict Example.raw_null_confidence.
Proof.
  eapply (@parse_output_unusable_confidence Example.example_pylib
            Example.raw_null_confidence).
  - reflexivity.
  - vm_compute. reflexivity.
  - vm_compute. reflexivity.
  - left. reflexivity.
Defined.

Lemma verdict_dom l c e cf r : dom (verdict l c e cf r) = five_keys.
Proof.
  unfold verdict, five_keys. rewrite !dom_insert_L, dom_empty_L. set_solver.
Qed.

(** Inserting under a key that is present keeps the set of keys. *)
Lemma dom_insert_present (m : dict) (k : string) (v : pyval) :
  k ∈ dom m -> dom (<[k := v]> m) = dom m.
Proof.
  intros Hin. rewrite dom_insert_L.
  apply set_eq. intros x. rewrite elem_of_union, elem_of_singleton.
  split; [intros [->|?]; assumption | auto].
Qed.

Lemma correct_with_evidence_dom parsed claim evidence_texts :
  parsed_verdict parsed ->
  exists (d : dict) (c : Q),
    _correct_with_evidence parsed claim evidence_texts = Ok d
    /\ dom d = five_keys
    /\ d !! "confidence" = Some (PFloat c).
Proof.
  intros (l & e & cf & r & c & ->).
  unfold _correct_with_evidence.
  destruct (cond_a _).
  { unfold dict_get. rewrite lookup_insert_ne by done.
    rewrite verdict_lookup_confidence. cbn [py_max num_of rbind].
    eexists. exists (if Qltb c 0.9 then 0.9%Q else c).
    split; [reflexivity|]. split.
    - rewrite !dom_insert_present; rewrite ?dom_insert_L, ?verdict_dom;
        unfold five_keys; try set_solver.
    - simplify_map_eq. by destruct (Qltb c 0.9). }
  destruct (cond_b _ _).
  { eexists. exists 0.95%Q. split; [reflexivity|]. split; [|by simplify_map_eq].
    rewrite !dom_insert_present; rewrite ?dom_insert_L, ?verdict_dom;
      unfold five_keys; try set_solver. }
  destruct (cond_c _).
  { eexists. exists 0.9%Q. split; [reflexivity|]. split; [|by simplify_map_eq].
    rewrite !dom_insert_present; rewrite ?dom_insert_L, ?verdict_dom;
      unfold five_keys; try set_solver. }
  destruct (cond_d _).
  { eexists. exists 0.6%Q. split; [reflexivity|]. split; [|by simplify_map_eq].
    rewrite !dom_insert_present; rewrite ?dom_insert_L, ?verdict_dom;
      unfold five_keys; try set_solver. }
  eexists. exists c. split; [reflexivity|].
  split; [apply verdict_dom | apply verdict_lookup_confidence].
Qed.

(** X6: for a claim that is not empty, the dictionary that
    [generate_explanation] returns has exactly the five keys label,
    confidence, explanation, counterfactual and reasoning, and its confidence
    is a float, whatever the model answered and whichever rule fired; the
    only other outcome is the exception of the model's call. *)
Theorem generate_explanation_keys
    {W : Type} {GM : GenerationModel W} {PL : PyLib}
    (claim : string) (evidence_texts : list string)
    (decoding_params : option dict) (w : W) :
  claim <> "" ->
  exists (prompt : string) (kwargs : generate_kwargs),
    match llm_generate prompt kwargs w with
    | (Raise e, w') =>
        generate_explanation claim evidence_texts decoding_params w
        = (Raise e, w')
    | (Ok raw, w') =>
        exists (d : dict) (c : Q),
          generate_explanation claim evidence_texts decoding_params w
          = (Ok d, w')
          /\ dom d = five_keys
          /\ d !! "confidence" = Some (PFloat c)
    end.
Proof.
  intros Hne. destruct claim as [|ch claim']; [contradiction|].
  unfold generate_explanation.
  cbn [PyStr.truthy String.eqb negb].
  match goal with
  | |- context [llm_generate ?p ?k] => exists p, k; unfold bind;
       destruct (llm_generate p k w) as [[raw|e] w']; [|reflexivity]
  end.
  destruct (correct_with_evidence_dom (_parse_output raw)
              (String ch claim') evidence_texts (parse_output_shape raw))
    as (d & c & Hd & Hdom & Hc).
  exists d, c. unfold lift. by rewrite Hd.
Qed.

(** X6, witness: a free-text answer and an evidence text that fires rule c. *)
Lemma generate_explanation_keys_witness :
  exists (d : dict) (c : Q),
    fst (@generate_explanation world (Example.scripted_model "no idea")
           Example.example_pylib "It rains." ["Measurements confirm it."]
           None world0) = Ok d
    /\ dom d = five_keys /\ d !! "confidence" = Some (PFloat c).
Proof.
  destruct (@generate_explanation_keys world (Example.scripted_model "no idea")
              Example.example_pylib "It rains." ["Measurements confirm it."]
              None world0) as (prompt & kwargs & H).
  - discriminate.
  - cbn [llm_generate Example.scripted_model] in H.
    destruct H as (d & c & Hd & Hdom & Hc).
    exists d, c. rewrite Hd. auto.
Defined.

Lemma dict_truthy_insert (m : dict) (k : string) (v : pyval) :
  dict_truthy (<[k := v]> m) = true.
Proof.
  unfold dict_truthy. apply negb_true_iff, Nat.eqb_neq.
  apply map_size_non_empty_iff, insert_non_empty.
Qed.

(** X7: the decoding parameters that [optimize_generation] proposes reach the
    generation model as they are: with its dictionary as [decoding_params],
    [generate_explanation] calls the model once, on the prompt built from the
    claim and at most five evidence texts, with that temperature, that
    num_beams, that repetition_penalty, and max_length 256, the default, as
    the dictionary has no such entry. *)
Theorem optimizer_params_reach_model
    {W : Type} {RM : RandomModule W} {GM : GenerationModel W} {PL : PyLib}
    (claim : string) (evidence_texts : list string) (w : W) :
  claim <> "" ->
  exists (t r : Q) (b : Z),
    let cfg := fst (optimize_generation w) in
    let w1 := snd (optimize_generation w) in
    cfg !! "temperature" = Some (PFloat t)
    /\ cfg !! "num_beams" = Some (PInt b)
    /\ cfg !! "repetition_penalty" = Some (PFloat r)
    /\ generate_explanation claim evidence_texts (Some cfg) w1
       = bind (llm_generate (build_prompt claim (prompt_context evidence_texts))
                 (kwargs_of_params t r b))
           (fun decoded =>
              lift (_correct_with_evidence (_parse_output decoded)
                      claim evidence_texts)) w1.
Proof.
  intros Hne. destruct claim as [|ch claim']; [contradiction|].
  assert (Hshape : exists (t r : Q) (b : Z),
             fst (optimize_generation w)
             = <["repetition_penalty" := PFloat r]>
                 (<["num_beams" := PInt b]>
                    (<["temperature" := PFloat t]> ∅))).
  { unfold optimize_generation, optimize_generation_body, bind, ret.
    destruct (random_uniform 0.6 0.9 w) as [[t|e] w1];
      [|by exists 0.7%Q, 1.2%Q, 4%Z].
    destruct (random_choice [2; 4; 6]%Z w1) as [[b|e] w2];
      [|by exists 0.7%Q, 1.2%Q, 4%Z].
    destruct (random_uniform 1.0 1.3 w2) as [[r|e] w3];
      [|by exists 0.7%Q, 1.2%Q, 4%Z].
    by exists (py_round t 2), (py_round r 2), b. }
  destruct Hshape as (t & r & b & Hcfg).
  exists t, r, b. cbv zeta. rewrite Hcfg.
  split; [by simplify_map_eq|].
  split; [by simplify_map_eq|].
  split; [by simplify_map_eq|].
  unfold generate_explanation.
  cbn [PyStr.truthy String.eqb negb].
  rewrite dict_truthy_insert.
  unfold dict_get, kwargs_of_params, prompt_context.
  by simplify_map_eq.
Qed.

(** X7, witness: the parameters drawn by the linear congruential generator
    are the keyword arguments recorded in the log of the model's call. *)
Lemma optimizer_params_reach_model_witness :
  let cfg := fst (@optimize_generation world Example.lcg_random world0) in
  let w1 := snd (@optimize_generation world Example.lcg_random world0) in
  exists t r b,
    cfg !! "temperature" = Some (PFloat t)
    /\ last (w_log (snd (@generate_explanation world
                           (Example.scripted_model "true") Example.example_pylib
                           "It rains." [] (Some cfg) w1)))
       = Some (EvGenerate (build_prompt "It rains." "No relevant evidence found.")
                 (kwargs_of_params t r b)).
Proof.
  cbv zeta.
  destruct (@optimizer_params_reach_model world Example.lcg_random
              (Example.scripted_model "true") Example.example_pylib
              "It rains." [] world0) as (t & r & b & Ht & _ & _ & Hgen).
  - discriminate.
  - exists t, r, b. split; [exact Ht|].
    cbv zeta in Hgen. rewrite Hgen.
    unfold bind. cbn [llm_generate Example.scripted_model].
    unfold lift. cbn [snd log_event w_log].
    apply last_snoc.
Defined.

(* ================================================================== *)
(** ** Further properties of src/tao_optimizer.py *)
(* ================================================================== *)

Lemma loss_curve_floor (n : Z) : (0.01 <= loss_curve n)%Q.
Proof.
  unfold loss_curve, fmax.
  destruct (Qltb _ _) eqn:H; [apply Qltb_true in H; lra | lra].
Qed.

Lemma loss_curve_flat (n : Z) : (10 <= n)%Z -> loss_curve n = 0.01%Q.
Proof.
  intros Hn. unfold loss_curve, fmax.
  destruct (Qltb _ _) eqn:H; [|reflexivity].
  apply Qltb_true in H. rewrite Zle_Qle in Hn.
  change (inject_Z 10) with 10%Q in Hn. lra.
Qed.

Lemma loss_curve_slope (n : Z) :
  (n <= 9)%Z -> loss_curve n = (0.5 - 0.05 * inject_Z n)%Q.
Proof.
  intros Hn. unfold loss_curve, fmax.
  destruct (Qltb _ _) eqn:H; [reflexivity|].
  apply Qltb_false in H. rewrite Zle_Qle in Hn.
  change (inject_Z 9) with 9%Q in Hn. lra.
Qed.

Lemma loss_curve_decreasing (n : Z) :
  (loss_curve (n + 1) <= loss_curve n)%Q.
Proof.
  destruct (Z_le_gt_dec 10 (n + 1)) as [Hbig|Hsmall].
  - rewrite (loss_curve_flat (n + 1)) by assumption. apply loss_curve_floor.
  - rewrite (loss_curve_slope (n + 1)), (loss_curve_slope n) by lia.
    rewrite inject_Z_plus. change (inject_Z 1) with 1%Q. lra.
Qed.

(** X8: an update never raises the loss and never takes it below the floor:
    after [continual_train] on a non-empty list the loss is between 0.01 and
    0.45, it is 0.01 exactly from the tenth update on, and it is not above
    the loss before, when this was the loss of an earlier update. *)
Theorem continual_train_loss_bounds
    {W : Type} {CK : Clock W} (self : TAOOptimizer) (b : pyval) (w : W) :
  nonempty_batch b ->
  (0 <= updates (stats self))%Z ->
  let self' := snd (fst (continual_train self b w)) in
  (0.01 <= loss (stats self') <= 0.45)%Q
  /\ ((9 <= updates (stats self))%Z -> loss (stats self') = 0.01%Q)
  /\ ((1 <= updates (stats self))%Z ->
      loss (stats self) = loss_curve (updates (stats self)) ->
      (loss (stats self') <= loss (stats self))%Q).
Proof.
  intros Hb Hpos.
  destruct (continual_train_nonempty self b w Hb) as (_ & Hl & _).
  cbv zeta in *. rewrite Hl.
  split; [split|split].
  - apply loss_curve_floor.
  - destruct (Z_le_gt_dec 10 (updates (stats self) + 1)) as [Hbig|Hsmall].
    + rewrite loss_curve_flat by assumption. lra.
    + rewrite loss_curve_slope by lia.
      rewrite inject_Z_plus. change (inject_Z 1) with 1%Q.
      rewrite Zle_Qle in Hpos. change (inject_Z 0) with 0%Q in Hpos. lra.
  - intros H9. apply loss_curve_flat. lia.
  - intros _ ->. apply loss_curve_decreasing.
Qed.

(** X8, witness: the eleventh update. *)
Lemma continual_train_loss_bounds_witness :
  let self :=
    {| model_name := "google/flan-t5-base";
       stats := {| steps := 10; updates := 10; loss := 0.01 |};
       last_update := 0 |} in
  loss (stats (snd (fst (@continual_train world Example.ticking_clock self
                           (PList [PNone]) world0)))) = 0.01%Q.
Proof.
  cbv zeta.
  apply (@continual_train_loss_bounds world Example.ticking_clock).
  - unfold nonempty_batch. eauto.
  - cbn. lia.
  - cbn. lia.
Defined.

Lemma py_len_nonneg (b : pyval) : (0 <= py_len b)%Z.
Proof. destruct b; cbn; lia. Qed.

Lemma py_len_nonempty (b : pyval) : nonempty_batch b -> (1 <= py_len b)%Z.
Proof. intros (x & l & ->). cbn [py_len length]. lia. Qed.

Lemma continual_train_all_steps
    {W : Type} {CK : Clock W} (batches : list pyval) :
  forall (self : TAOOptimizer) (w : W),
    Forall nonempty_batch batches ->
    steps (stats (fst (continual_train_all self batches w)))
    = (steps (stats self) + total_samples batches)%Z.
Proof.
  induction batches as [|b rest IH]; intros self w Hall.
  - cbn. lia.
  - apply Forall_cons_1 in Hall as [Hb Hrest].
    pose proof (continual_train_nonempty self b w Hb) as (_ & _ & Hs).
    cbn [continual_train_all total_samples fold_right].
    destruct (continual_train self b w) as [[status self'] w'].
    cbn [fst snd] in Hs. rewrite (IH self' w' Hrest), Hs.
    unfold total_samples. lia.
Qed.

(** X9: [steps] counts samples: after successive calls on non-empty lists,
    from a fresh optimizer, [steps] is the sum of the lengths of the lists,
    which is at least the number of calls. *)
Theorem continual_train_counts_samples
    {W : Type} {CK : Clock W}
    (name : option string) (w0 w : W) (batches : list pyval) :
  Forall nonempty_batch batches ->
  let final := fst (continual_train_all (fresh_optimizer name w0) batches w) in
  steps (stats final) = total_samples batches
  /\ (updates (stats final) <= steps (stats final))%Z.
Proof.
  intros Hall. cbv zeta.
  assert (Hfresh : steps (stats (fresh_optimizer name w0)) = 0%Z
                   /\ updates (stats (fresh_optimizer name w0)) = 0%Z).
  { unfold fresh_optimizer, TAOOptimizer_init.
    destruct (time_time w0) as [now w1]. by cbn. }
  destruct Hfresh as [Hs Hu].
  rewrite continual_train_all_steps by assumption.
  destruct (continual_train_all_nonempty batches (fresh_optimizer name w0) w Hall)
    as [Hupd _].
  cbv zeta in Hupd. rewrite Hupd, Hs, Hu.
  split; [lia|].
  clear -Hall. induction Hall as [|b rest Hb _ IH]; [cbn; lia|].
  cbn [length total_samples fold_right]. unfold total_samples in IH.
  pose proof (py_len_nonempty b Hb). lia.
Qed.

(** X9, witness: lists of one, two and three samples. *)
Lemma continual_train_counts_samples_witness :
  steps (stats (fst (@continual_train_all world Example.ticking_clock
                       (@fresh_optimizer world Example.ticking_clock None world0)
                       [PList [PNone]; PList [PNone; PNone];
                        PList [PNone; PNone; PNone]] world0))) = 6%Z.
Proof.
  apply (@continual_train_counts_samples world Example.ticking_clock None
           world0 world0
           [PList [PNone]; PList [PNone; PNone]; PList [PNone; PNone; PNone]]).
  repeat constructor; unfold nonempty_batch; eauto.
Defined.

(** X10: [continual_train] answers "no data" exactly when its argument is not
    a non-empty list (an empty list, [None], a string, a dictionary, ...):
    then the optimizer and the world are as before; on a non-empty list the
    status is another string and [updates] grows by one. *)
Theorem continual_train_no_data_iff
    {W : Type} {CK : Clock W} (self : TAOOptimizer) (b : pyval) (w : W) :
  (~ nonempty_batch b ->
   continual_train self b w = ((no_data_status, self), w))
  /\ (nonempty_batch b ->
      fst (fst (continual_train self b w)) <> no_data_status
      /\ updates (stats (snd (fst (continual_train self b w))))
         = (updates (stats self) + 1)%Z).
Proof.
  split.
  - intros Hnot. unfold continual_train.
    destruct b as [| | | | |[|x l]|]; try reflexivity.
    + cbn [py_truthy is_list negb]. by rewrite orb_true_r.
    + cbn [py_truthy is_list negb]. by rewrite orb_true_r.
    + cbn [py_truthy is_list negb]. by rewrite orb_true_r.
    + cbn [py_truthy is_list negb]. by rewrite orb_true_r.
    + exfalso. apply Hnot. unfold nonempty_batch. eauto.
    + cbn [py_truthy is_list negb]. by rewrite orb_true_r.
  - intros Hb. split.
    + destruct Hb as (x & l & ->). unfold continual_train.
      cbn [py_truthy is_list negb orb].
      destruct (time_time w) as [now w']. cbn [fst].
      unfold no_data_status. discriminate.
    + by destruct (continual_train_nonempty self b w Hb) as (Hu & _).
Qed.

(** X10, witness: a dictionary of samples is not a list. *)
Lemma continual_train_no_data_iff_witness :
  let self :=
    {| model_name := "google/flan-t5-base";
       stats := {| steps := 3; updates := 2; loss := 0.4 |};
       last_update := 0 |} in
  @continual_train world Example.ticking_clock self
    (PDict (<["text" := PStr "a claim"]> ∅)) world0
  = ((no_data_status, self), world0).
Proof.
  cbv zeta.
  apply (@continual_train_no_data_iff world Example.ticking_clock).
  intros (x & l & H). discriminate H.
Defined.

(* ================================================================== *)
(** ** Further properties of src/live_retriever.py: retrieve *)
(* ================================================================== *)

(** [retrieve] after its three adapter calls. *)
Lemma retrieve_after_adapters
    {W : Type} {ES : EvidenceSources W} {EM : Embedder}
    (query : string) (top_k : Z) (w w1 w2 w3 : W)
    (faiss wiki news : list evidence_item) :
  query <> "" ->
  _search_faiss query top_k w = (faiss, w1) ->
  _wikipedia_search query 2 w1 = (wiki, w2) ->
  _newsapi_search query 3 w2 = (news, w3) ->
  retrieve query top_k w
  = (match faiss ++ wiki ++ news with
     | [] => []
     | _ =>
         match score_pass query (faiss ++ wiki ++ news) with
         | Raise e => faiss ++ wiki ++ news
         | Ok scores =>
             match sorted_by_score_desc
                     (zip_with set_score (faiss ++ wiki ++ news) scores) with
             | Raise e => zip_with set_score (faiss ++ wiki ++ news) scores
             | Ok ranked => slice_to ranked top_k
             end
         end
     end, w3).
Proof.
  intros Hq Hf Hw Hn. unfold retrieve.
  destruct query as [|c query']; [contradiction|].
  cbn [PyStr.truthy String.eqb negb].
  rewrite Hf. cbn [app]. rewrite Hw, Hn. rewrite <- app_assoc.
  destruct (faiss ++ wiki ++ news) as [|e0 rest]; [reflexivity|].
  destruct (score_pass _ _) as [scores|e]; [|reflexivity].
  destruct (sorted_by_score_desc _) as [ranked|e]; reflexivity.
Qed.

(** X11: nothing to rank.  On the empty query [retrieve] returns the empty
    list and calls no adapter (the world is as before); when the three
    adapters all answer with the empty list it returns the empty list,
    whatever the encoder is or does. *)
Theorem retrieve_nothing_found
    {W : Type} {ES : EvidenceSources W} {EM : Embedder}
    (query : string) (top_k : Z) (w w1 w2 w3 : W) :
  retrieve "" top_k w = ([], w)
  /\ (query <> "" ->
      _search_faiss query top_k w = ([], w1) ->
      _wikipedia_search query 2 w1 = ([], w2) ->
      _newsapi_search query 3 w2 = ([], w3) ->
      retrieve query top_k w = ([], w3)).
Proof.
  split; [reflexivity|].
  intros Hq Hf Hw Hn.
  by rewrite (retrieve_after_adapters query top_k w w1 w2 w3 [] [] [] Hq Hf Hw Hn).
Qed.

(** X12: when the scoring pass raises, [retrieve] returns the whole
    concatenation of the adapter answers, in adapter order, with the scores
    the adapters supplied (or none): it is neither sorted nor cut to top_k. *)
Theorem retrieve_scoring_failure
    {W : Type} {ES : EvidenceSources W} {EM : Embedder}
    (query : string) (top_k : Z) (w w1 w2 w3 : W)
    (faiss wiki news : list evidence_item) (e : exn) :
  query <> "" ->
  _search_faiss query top_k w = (faiss, w1) ->
  _wikipedia_search query 2 w1 = (wiki, w2) ->
  _newsapi_search query 3 w2 = (news, w3) ->
  score_pass query (faiss ++ wiki ++ news) = Raise e ->
  retrieve query top_k w = (faiss ++ wiki ++ news, w3).
Proof.
  intros Hq Hf Hw Hn Hs.
  rewrite (retrieve_after_adapters query top_k w w1 w2 w3 faiss wiki news
             Hq Hf Hw Hn).
  rewrite Hs. by destruct (faiss ++ wiki ++ news).
Qed.

Lemma zip_with_set_score_from (evidence : list evidence_item) (scores : list Q) :
  Forall (from_adapters evidence) (zip_with set_score evidence scores)
  /\ (length (zip_with set_score evidence scores) <= length evidence)%nat.
Proof.
  revert scores. induction evidence as [|e r IH]; intros scores.
  - split; [constructor | cbn; lia].
  - destruct scores as [|s ss]; cbn [zip_with].
    + split; [constructor | cbn; lia].
    + destruct (IH ss) as [IH1 IH2]. split; [|cbn [length]; lia].
      constructor.
      * exists e. cbn. auto.
      * eapply Forall_impl; [exact IH1|].
        intros x (e0 & Hin & Hs & Ht). exists e0. cbn. auto.
Qed.

Lemma key_of_score_snd (e : evidence_item) (p : Q * evidence_item) :
  key_of_score e = Ok p -> snd p = e.
Proof.
  unfold key_of_score. destruct (ev_score e); [|discriminate].
  by intros [= <-].
Qed.

Lemma sorted_by_score_desc_perm (l r : list evidence_item) :
  sorted_by_score_desc l = Ok r -> Permutation r l.
Proof.
  unfold sorted_by_score_desc.
  destruct l as [|e [|e' rest]]; try (by intros [= <-]).
  destruct (rmap key_of_score _) as [keyed|ex] eqn:Hk; cbn [rbind];
    [|discriminate].
  intros [= <-].
  assert (Hsnd : map snd keyed = e :: e' :: rest).
  { apply rmap_Forall2 in Hk. clear -Hk.
    induction Hk as [|x p xs ps Hx _ IH]; [reflexivity|].
    cbn [map]. by rewrite (key_of_score_snd _ _ Hx), IH. }
  rewrite <- Hsnd. apply Permutation_map, sort_desc_perm.
Qed.

Lemma slice_to_prefix {A} (l : list A) (k : Z) :
  exists n : nat, slice_to l k = take n l.
Proof. unfold slice_to. destruct (0 <=? k)%Z; eauto. Qed.

(** X13: [retrieve] never makes evidence up and never repeats it: on every
    path (empty query, no evidence, failed scoring, ranked result) each
    returned item has the source and the text of an item the adapters
    answered with, and no more items are returned than they answered with. *)
Theorem retrieve_only_adapter_evidence
    {W : Type} {ES : EvidenceSources W} {EM : Embedder}
    (query : string) (top_k : Z) (w w1 w2 w3 : W)
    (faiss wiki news : list evidence_item) :
  _search_faiss query top_k w = (faiss, w1) ->
  _wikipedia_search query 2 w1 = (wiki, w2) ->
  _newsapi_search query 3 w2 = (news, w3) ->
  let result := fst (retrieve query top_k w) in
  Forall (from_adapters (faiss ++ wiki ++ news)) result
  /\ (length result <= length (faiss ++ wiki ++ news))%nat.
Proof.
  intros Hf Hw Hn. cbv zeta.
  destruct query as [|c query'].
  { cbn. split; [constructor | lia]. }
  rewrite (retrieve_after_adapters (String c query') top_k w w1 w2 w3
             faiss wiki news ltac:(discriminate) Hf Hw Hn).
  cbn [fst].
  generalize (faiss ++ wiki ++ news). intros evidence.
  assert (Hself : Forall (from_adapters evidence) evidence).
  { apply Forall_forall. intros x Hx. exists x.
    split; [by apply list_elem_of_In|]. auto. }
  assert (Hscored :
    Forall (from_adapters evidence)
      (match score_pass (String c query') evidence with
       | Raise e => evidence
       | Ok scores =>
           match sorted_by_score_desc (zip_with set_score evidence scores) with
           | Raise e => zip_with set_score evidence scores
           | Ok ranked => slice_to ranked top_k
           end
       end)
    /\ (length
          (match score_pass (String c query') evidence with
           | Raise e => evidence
           | Ok scores =>
               match sorted_by_score_desc (zip_with set_score evidence scores) with
               | Raise e => zip_with set_score evidence scores
               | Ok ranked => slice_to ranked top_k
               end
           end) <= length evidence)%nat).
  { destruct (score_pass _ _) as [scores|ex]; [|split; auto].
    destruct (zip_with_set_score_from evidence scores) as [Hfrom Hlen].
    destruct (sorted_by_score_desc _) as [ranked|ex] eqn:Hsort; [|split; auto].
    apply sorted_by_score_desc_perm in Hsort.
    destruct (slice_to_prefix ranked top_k) as [n ->].
    split.
    - apply Forall_take. by rewrite Hsort.
    - rewrite length_take. rewrite (Permutation_length Hsort). lia. }
  destruct evidence as [|e0 rest]; [split; [constructor | cbn; lia]|].
  exact Hscored.
Qed.

(** X13, witness: the four items of the sample adapters, top_k = 3. *)
Lemma retrieve_only_adapter_evidence_witness :
  (length (fst (@retrieve world Example.sample_sources Example.unit_embedder
                  "xyz" 3 world0)) <= 4)%nat.
Proof.
  apply (@retrieve_only_adapter_evidence world Example.sample_sources
           Example.unit_embedder "xyz" 3 world0 _ _ _ [] _ _
           eq_refl eq_refl eq_refl).
Defined.

(** X11, witness: three adapters with nothing to say. *)
Lemma retrieve_nothing_found_witness :
  fst (@retrieve world (Example.scripted_sources [] [] [])
         Example.failing_embedder "xyz" 5 world0) = [].
Proof.
  destruct (@retrieve_nothing_found world (Example.scripted_sources [] [] [])
              Example.failing_embedder "xyz" 5 world0
              (log_event (EvFaiss "xyz" 5) world0)
              (log_event (EvWikipedia "xyz" 2) (log_event (EvFaiss "xyz" 5) world0))
              (log_event (EvNewsApi "xyz" 3)
                 (log_event (EvWikipedia "xyz" 2)
                    (log_event (EvFaiss "xyz" 5) world0))))
    as [_ H].
  rewrite H; [reflexivity | discriminate | reflexivity..].
Defined.

(** X12, witness: the encoder raises; top_k is 1 and four items come back,
    the last with the score its adapter gave it. *)
Lemma retrieve_scoring_failure_witness :
  map ev_text (fst (@retrieve world Example.sample_sources
                      Example.failing_embedder "xyz" 1 world0))
  = ["bb"; "aaa"; "d"; "cccccc"].
Proof.
  rewrite (@retrieve_scoring_failure world Example.sample_sources
             Example.failing_embedder "xyz" 1 world0 _ _ _ [] _ _
             (Exn "RuntimeError" "encoder not loaded")
             ltac:(discriminate) eq_refl eq_refl eq_refl eq_refl).
  reflexivity.
Defined.

Lemma StronglySorted_app_cross {A} (R : A -> A -> Prop) (l1 l2 : list A) :
  StronglySorted R (l1 ++ l2) ->
  forall a b : A, In a l1 -> In b l2 -> R a b.
Proof.
  induction l1 as [|x r IH]; intros Hs a b Ha Hb; [destruct Ha|].
  cbn [app] in Hs. apply StronglySorted_inv in Hs as [Hr Hx].
  destruct Ha as [<-|Ha]; [|by apply IH].
  rewrite Forall_forall in Hx. apply Hx.
  apply list_elem_of_In, in_or_app. by right.
Qed.

(** A successful scoring pass, seen from the sort keys. *)
Lemma retrieve_success_keyed
    {W : Type} {ES : EvidenceSources W} {EM : Embedder}
    (query : string) (top_k : Z) (w w1 w2 w3 : W)
    (faiss wiki news : list evidence_item) (scores : list Q) :
  query <> "" ->
  _search_faiss query top_k w = (faiss, w1) ->
  _wikipedia_search query 2 w1 = (wiki, w2) ->
  _newsapi_search query 3 w2 = (news, w3) ->
  faiss ++ wiki ++ news <> [] ->
  score_pass query (faiss ++ wiki ++ news) = Ok scores ->
  (0 <= top_k)%Z ->
  exists keyed : list (Q * evidence_item),
    map snd keyed = zip_with set_score (faiss ++ wiki ++ news) scores
    /\ Forall keyed_by_score keyed
    /\ length scores = length (faiss ++ wiki ++ news)
    /\ retrieve query top_k w
       = (take (Z.to_nat top_k) (map snd (sort_desc keyed)), w3).
Proof.
  intros Hq Hf Hw Hn Hne Hscore Hk.
  pose proof (score_pass_cosine _ _ _ Hscore) as Hcos.
  destruct (set_scores_cosine _ _ _ Hcos) as [Hby Hsome].
  destruct (rmap_key_of_score _ Hsome) as (keyed & Hkeyed & Hmap & Hkb).
  exists keyed. split; [exact Hmap|]. split; [exact Hkb|].
  split; [symmetry; eapply Forall2_length; exact Hcos|].
  rewrite (retrieve_after_adapters query top_k w w1 w2 w3 faiss wiki news
             Hq Hf Hw Hn).
  rewrite Hscore, (sorted_by_score_desc_keyed _ _ Hkeyed).
  destruct (faiss ++ wiki ++ news); [contradiction|].
  unfold slice_to. destruct (Z.leb_spec 0 top_k); [reflexivity | lia].
Qed.

(** X14: the cut keeps the best.  On a successful scoring pass with
    top_k >= 0, the result and the items left out make up the scored
    concatenation, every returned item scores at least as high as every
    item left out, and min(top_k, number of adapter items) items are
    returned: nothing is dropped when top_k is large enough. *)
Theorem retrieve_keeps_best
    {W : Type} {ES : EvidenceSources W} {EM : Embedder}
    (query : string) (top_k : Z) (w w1 w2 w3 : W)
    (faiss wiki news : list evidence_item) (scores : list Q) :
  query <> "" ->
  _search_faiss query top_k w = (faiss, w1) ->
  _wikipedia_search query 2 w1 = (wiki, w2) ->
  _newsapi_search query 3 w2 = (news, w3) ->
  faiss ++ wiki ++ news <> [] ->
  score_pass query (faiss ++ wiki ++ news) = Ok scores ->
  (0 <= top_k)%Z ->
  let result := fst (retrieve query top_k w) in
  exists dropped : list evidence_item,
    Permutation (result ++ dropped)
      (zip_with set_score (faiss ++ wiki ++ news) scores)
    /\ (forall a b : evidence_item,
          In a result -> In b dropped -> score_ge a b)
    /\ length result
       = Nat.min (Z.to_nat top_k) (length (faiss ++ wiki ++ news)).
Proof.
  intros Hq Hf Hw Hn Hne Hscore Hk. cbv zeta.
  destruct (retrieve_success_keyed query top_k w w1 w2 w3 faiss wiki news scores
              Hq Hf Hw Hn Hne Hscore Hk) as (keyed & Hmap & Hkb & Hlen & ->).
  cbn [fst].
  set (ranked := map snd (sort_desc keyed)).
  assert (Hperm : Permutation ranked
                    (zip_with set_score (faiss ++ wiki ++ news) scores)).
  { subst ranked. rewrite <- Hmap. apply Permutation_map, sort_desc_perm. }
  assert (Hsorted : StronglySorted score_ge ranked).
  { apply keyed_sorted; [|apply sort_desc_sorted].
    by rewrite (sort_desc_perm keyed). }
  exists (drop (Z.to_nat top_k) ranked).
  split; [by rewrite take_drop|]. split.
  - apply StronglySorted_app_cross. by rewrite take_drop.
  - rewrite length_take. f_equal.
    rewrite (Permutation_length Hperm), length_zip_with. lia.
Qed.

(** X14, witness: with top_k = 10 the four sample items all come back. *)
Lemma retrieve_keeps_best_witness :
  length (fst (@retrieve world Example.sample_sources Example.unit_embedder
                 "xyz" 10 world0)) = 4%nat.
Proof.
  edestruct (@retrieve_keeps_best world Example.sample_sources
               Example.unit_embedder "xyz" 10 world0)
    as (dropped & _ & _ & Hlen).
  - discriminate.
  - reflexivity.
  - reflexivity.
  - reflexivity.
  - discriminate.
  - vm_compute. reflexivity.
  - lia.
  - rewrite Hlen. reflexivity.
Defined.

(* ================================================================== *)
(** ** Further properties of src/rag_pipeline.py *)
(* ================================================================== *)

Set Warnings "-clear-no-such-hyp".

Lemma generate_explanation_dom
    {W : Type} {GM : GenerationModel W} {PL : PyLib}
    (claim : string) (evidence_texts : list string)
    (decoding_params : option dict) (w w' : W) (d : dict) :
  generate_explanation claim evidence_texts decoding_params w = (Ok d, w') ->
  dom d = three_keys \/ dom d = five_keys.
Proof.
  unfold generate_explanation.
  destruct (negb (PyStr.truthy claim)).
  - intros [= <- _]. left. unfold empty_claim_verdict, three_keys.
    rewrite !dom_insert_L, dom_empty_L. set_solver.
  - unfold bind. destruct (llm_generate _ _ w) as [[raw|e] w1]; [|discriminate].
    destruct (correct_with_evidence_dom (_parse_output raw) claim evidence_texts
                (parse_output_shape raw)) as (d' & c & Hd & Hdom & _).
    unfold lift. rewrite Hd. intros [= <- _]. by right.
Qed.

Lemma uncertain_result_dom (s : string) : dom (uncertain_result s) = three_keys.
Proof.
  unfold uncertain_result, three_keys.
  rewrite !dom_insert_L, dom_empty_L. set_solver.
Qed.

Lemma analyze_dom
    {W : Type} {ES : EvidenceSources W} {EM : Embedder}
    {RM : RandomModule W} {CK : Clock W}
    {GM : GenerationModel W} {PL : PyLib}
    (self : RAGPipeline) (text : string) (w : W) :
  result_keys_always ⊆ dom (fst (fst (analyze self text w)))
  /\ dom (fst (fst (analyze self text w))) ⊆ result_keys_possible.
Proof.
  unfold analyze.
  destruct (negb (PyStr.truthy text) || negb (PyStr.truthy (PyStr.strip text))).
  { cbn [fst]. unfold empty_input_result, result_keys_always, result_keys_possible.
    rewrite !dom_insert_L, dom_empty_L. split; set_solver. }
  destruct (if ret_available self then _ else _) as [[docs texts] w1].
  destruct (match tao self with Some _ => _ | None => _ end) as [cfg w2] eqn:Hcfg.
  destruct (negb (gen_available self)).
  { cbn [fst]. rewrite !dom_insert_L, uncertain_result_dom.
    unfold three_keys, result_keys_always, result_keys_possible.
    split; set_solver. }
  assert (Hbase : exists base w3,
             match generate_explanation text texts cfg w2 with
             | (Ok out, w) =>
                 (if dict_truthy out then out else uncertain_result "No output", w)
             | (Raise e, w) => (uncertain_result (exn_msg e), w)
             end = (base, w3)
             /\ (dom base = three_keys \/ dom base = five_keys)).
  { destruct (generate_explanation text texts cfg w2) as [[out|e] w3] eqn:Hgen.
    - do 2 eexists. split; [reflexivity|].
      destruct (dict_truthy out);
        [exact (generate_explanation_dom _ _ _ _ _ _ Hgen)
        | left; apply uncertain_result_dom].
    - do 2 eexists. split; [reflexivity|]. left. apply uncertain_result_dom. }
  destruct Hbase as (base & w3 & -> & Hbase).
  destruct (tao self) as [t|].
  - destruct (continual_train t _ w3) as [[status t'] w4]. cbn [fst].
    rewrite !dom_insert_L.
    unfold three_keys, five_keys, result_keys_always, result_keys_possible in *.
    destruct Hbase as [-> | ->]; split; set_solver.
  - cbn [fst]. rewrite !dom_insert_L.
    unfold three_keys, five_keys, result_keys_always, result_keys_possible in *.
    destruct Hbase as [-> | ->]; split; set_solver.
Qed.

Lemma nonblank_guard (text : string) :
  PyStr.strip text <> "" ->
  negb (PyStr.truthy text) || negb (PyStr.truthy (PyStr.strip text)) = false.
Proof.
  intros Hne. unfold PyStr.truthy. rewrite !negb_involutive.
  apply orb_false_iff. split; apply String.eqb_neq; [|exact Hne].
  intros ->. by apply Hne.
Qed.

(** X15: every result of [analyze], on every input and with every choice of
    collaborators, present or missing, raising or not, has the keys label,
    confidence, explanation, tao_status and _evidence, and no key besides
    these, counterfactual, reasoning and last_update. *)
Theorem analyze_result_keys
    {W : Type} {ES : EvidenceSources W} {EM : Embedder}
    {RM : RandomModule W} {CK : Clock W}
    {GM : GenerationModel W} {PL : PyLib}
    (self : RAGPipeline) (text : string) (w : W) :
  let out := fst (fst (analyze self text w)) in
  (forall k : string, k ∈ result_keys_always -> is_Some (out !! k))
  /\ (forall k : string, is_Some (out !! k) -> k ∈ result_keys_possible).
Proof.
  cbv zeta. destruct (analyze_dom self text w) as [Hmin Hmax].
  split; intros k Hk.
  - apply elem_of_dom. by apply Hmin.
  - apply Hmax. by apply elem_of_dom.
Qed.

(** X16: a result of [analyze] always carries a label for [evaluate] to
    read: the predicted label that [evaluate] takes from it is the entry
    under "label", and the "raw_output" heuristic of [evaluate] is never
    reached. *)
Theorem evaluate_label_of_analyze
    {W : Type} {ES : EvidenceSources W} {EM : Embedder}
    {RM : RandomModule W} {CK : Clock W}
    {GM : GenerationModel W} {PL : PyLib}
    (self : RAGPipeline) (text : string) (w : W) :
  let out := fst (fst (analyze self text w)) in
  out !! "raw_output" = None
  /\ exists l : pyval, out !! "label" = Some l /\ evaluate_label out = Ok l.
Proof.
  cbv zeta. destruct (analyze_dom self text w) as [Hmin Hmax].
  assert (Hraw : fst (fst (analyze self text w)) !! "raw_output" = None).
  { apply not_elem_of_dom. intros Hin. apply Hmax in Hin.
    unfold result_keys_possible in Hin. set_solver. }
  assert (Hlabel : is_Some (fst (fst (analyze self text w)) !! "label")).
  { apply elem_of_dom, Hmin. unfold result_keys_always. set_solver. }
  destruct Hlabel as [l Hl].
  split; [exact Hraw|]. exists l. split; [exact Hl|].
  unfold evaluate_label, dict_get. rewrite Hl, Hraw. by destruct l.
Qed.

(** X17: without a generator, a non-blank input gets the fixed verdict
    (Uncertain, 0.5, "Generator not available.") with the status
    "Skipped (no generator)"; the evidence that was retrieved is attached
    all the same, and the pipeline, optimizer included, is left as it was. *)
Theorem analyze_without_generator
    {W : Type} {ES : EvidenceSources W} {EM : Embedder}
    {RM : RandomModule W} {CK : Clock W}
    {GM : GenerationModel W} {PL : PyLib}
    (self : RAGPipeline) (text : string) (w : W) :
  PyStr.strip text <> "" ->
  gen_available self = false ->
  let out := fst (fst (analyze self text w)) in
  snd (fst (analyze self text w)) = self
  /\ out !! "label" = Some (PStr "Uncertain")
  /\ out !! "confidence" = Some (PFloat 0.5)
  /\ out !! "explanation" = Some (PStr "Generator not available.")
  /\ out !! "tao_status" = Some (PStr "Skipped (no generator)")
  /\ out !! "_evidence" = Some (attached_evidence self text w).
Proof.
  intros Hne Hgen. cbv zeta.
  unfold analyze, attached_evidence.
  rewrite (nonblank_guard text Hne), Hgen. cbn [negb].
  destruct (ret_available self).
  - destruct (retrieve text 6 w) as [docs w1]. cbn [fst].
    destruct (tao self) as [t|].
    + destruct (optimize_generation w1) as [cfg w2]. cbn [fst snd].
      unfold uncertain_result. repeat split; by simplify_map_eq.
    + cbn [fst snd]. unfold uncertain_result. repeat split; by simplify_map_eq.
  - destruct (tao self) as [t|].
    + destruct (optimize_generation w) as [cfg w2]. cbn [fst snd].
      unfold uncertain_result. repeat split; by simplify_map_eq.
    + cbn [fst snd]. unfold uncertain_result. repeat split; by simplify_map_eq.
Qed.

(** X17, witness: the full pipeline with its generator taken away. *)
Lemma analyze_without_generator_witness :
  let self :=
    {| ret_available := true; gen_available := false;
       tao := tao Example.full_pipeline |} in
  snd (fst (@analyze world Example.sample_sources Example.unit_embedder
              Example.lcg_random Example.ticking_clock
              (Example.scripted_model "true") Example.example_pylib
              self "The Earth is flat." world0)) = self.
Proof.
  cbv zeta.
  apply (@analyze_without_generator world Example.sample_sources
           Example.unit_embedder Example.lcg_random Example.ticking_clock
           (Example.scripted_model "true") Example.example_pylib).
  - vm_compute. discriminate.
  - reflexivity.
Defined.

(** X18: when the call of the generator that [analyze] makes raises, be it
    this one call only, [analyze] still answers: the verdict is Uncertain
    with confidence 0.5, the explanation is the message of the exception,
    there is no counterfactual, and the retrieved evidence is attached. *)
Theorem analyze_generator_failure
    {W : Type} {ES : EvidenceSources W} {EM : Embedder}
    {RM : RandomModule W} {CK : Clock W}
    {GM : GenerationModel W} {PL : PyLib}
    (self : RAGPipeline) (text : string) (w : W) (e : exn) :
  PyStr.strip text <> "" ->
  gen_available self = true ->
  generator_outcome self text w = Raise e ->
  let out := fst (fst (analyze self text w)) in
  out !! "label" = Some (PStr "Uncertain")
  /\ out !! "confidence" = Some (PFloat 0.5)
  /\ out !! "explanation" = Some (PStr (exn_msg e))
  /\ out !! "counterfactual" = None
  /\ out !! "_evidence" = Some (attached_evidence self text w).
Proof.
  intros Hne Hgen Hraise. cbv zeta.
  unfold generator_outcome, generator_call in Hraise.
  unfold analyze, attached_evidence.
  rewrite (nonblank_guard text Hne), Hgen. cbn [negb].
  destruct (ret_available self).
  - destruct (retrieve text 6 w) as [docs w1]. cbn [fst].
    destruct (tao self) as [t|].
    + destruct (optimize_generation w1) as [cfg w2].
      destruct (generate_explanation text _ (Some cfg) w2) as [r w3].
      cbn [fst] in Hraise. subst r.
      destruct (continual_train t _ w3) as [[status t'] w4]. cbn [fst].
      unfold uncertain_result. repeat split; by simplify_map_eq.
    + destruct (generate_explanation text _ None w1) as [r w3].
      cbn [fst] in Hraise. subst r.
      cbn [fst]. unfold uncertain_result. repeat split; by simplify_map_eq.
  - destruct (tao self) as [t|].
    + destruct (optimize_generation w) as [cfg w2].
      destruct (generate_explanation text _ (Some cfg) w2) as [r w3].
      cbn [fst] in Hraise. subst r.
      destruct (continual_train t _ w3) as [[status t'] w4]. cbn [fst].
      unfold uncertain_result. repeat split; by simplify_map_eq.
    + destruct (generate_explanation text _ None w) as [r w3].
      cbn [fst] in Hraise. subst r.
      cbn [fst]. unfold uncertain_result. repeat split; by simplify_map_eq.
Qed.

(** X18, witness: a model that is out of memory the first time it is called
    and answers afterwards. *)
Lemma analyze_generator_failure_witness :
  @generator_outcome world Example.sample_sources Example.unit_embedder
    Example.lcg_random Example.flaky_model Example.example_pylib
    Example.full_pipeline "The Earth is flat." world0
  = Raise (Exn "RuntimeError" "CUDA out of memory")
  /\ fst (fst (@analyze world Example.sample_sources Example.unit_embedder
                 Example.lcg_random Example.ticking_clock
                 Example.flaky_model Example.example_pylib
                 Example.full_pipeline "The Earth is flat." world0))
     !! "explanation" = Some (PStr "CUDA out of memory").
Proof.
  split; [vm_compute; reflexivity|].
  apply (@analyze_generator_failure world Example.sample_sources
           Example.unit_embedder Example.lcg_random Example.ticking_clock
           Example.flaky_model Example.example_pylib
           Example.full_pipeline "The Earth is flat." world0
           (Exn "RuntimeError" "CUDA out of memory")).
  - vm_compute. discriminate.
  - reflexivity.
  - vm_compute. reflexivity.
Defined.

(** One call of [analyze] with a generator and an optimizer. *)
Lemma analyze_tao_step
    {W : Type} {ES : EvidenceSources W} {EM : Embedder}
    {RM : RandomModule W} {CK : Clock W}
    {GM : GenerationModel W} {PL : PyLib}
    (self : RAGPipeline) (t : TAOOptimizer) (text : string) (w : W) :
  PyStr.strip text <> "" ->
  gen_available self = true ->
  tao self = Some t ->
  exists t' : TAOOptimizer,
    snd (fst (analyze self text w))
    = {| ret_available := ret_available self;
         gen_available := gen_available self;
         tao := Some t' |}
    /\ updates (stats t') = (updates (stats t) + 1)%Z
    /\ steps (stats t') = (steps (stats t) + 1)%Z
    /\ loss (stats t') = loss_curve (updates (stats t) + 1).
Proof.
  intros Hne Hgen Ht.
  unfold analyze.
  rewrite (nonblank_guard text Hne), Hgen, Ht. cbn [negb].
  destruct (if ret_available self then _ else _) as [[docs texts] w1].
  destruct (optimize_generation w1) as [cfg w2].
  destruct (match generate_explanation text texts (Some cfg) w2 with
            | (Ok out, w) => _
            | (Raise e, w) => _
            end) as [out w3].
  match goal with
  | |- context [continual_train t ?b ?w0] =>
      pose proof (continual_train_nonempty t b w0
                    ltac:(unfold nonempty_batch; eauto)) as (Hu & Hl & Hs);
      destruct (continual_train t b w0) as [[status t'] w4]
  end.
  cbn [fst snd] in *. exists t'.
  split; [reflexivity|]. split; [exact Hu|]. split; [|exact Hl].
  rewrite Hs. reflexivity.
Qed.

(** X19: [analyze] updates the optimizer exactly once per verdict: on a
    non-blank input, with a generator and an optimizer, [updates] and [steps]
    each grow by one and the loss moves along the curve, whether the
    generator answered or raised; on a blank input, without a generator, or
    without an optimizer, the pipeline is left as it was. *)
Theorem analyze_updates_optimizer
    {W : Type} {ES : EvidenceSources W} {EM : Embedder}
    {RM : RandomModule W} {CK : Clock W}
    {GM : GenerationModel W} {PL : PyLib}
    (self : RAGPipeline) (text : string) (w : W) :
  (forall t : TAOOptimizer,
      PyStr.strip text <> "" ->
      gen_available self = true ->
      tao self = Some t ->
      exists t' : TAOOptimizer,
        snd (fst (analyze self text w))
        = {| ret_available := ret_available self;
             gen_available := gen_available self;
             tao := Some t' |}
        /\ updates (stats t') = (updates (stats t) + 1)%Z
        /\ steps (stats t') = (steps (stats t) + 1)%Z
        /\ loss (stats t') = loss_curve (updates (stats t) + 1))
  /\ (PyStr.strip text = "" \/ gen_available self = false \/ tao self = None ->
      snd (fst (analyze self text w)) = self).
Proof.
  split; [intros t; apply analyze_tao_step|].
  intros Hcase. unfold analyze.
  destruct (negb (PyStr.truthy text) || negb (PyStr.truthy (PyStr.strip text)))
    eqn:Hguard; [reflexivity|].
  destruct Hcase as [Hblank|Hcase].
  { rewrite Hblank in Hguard. cbn in Hguard. rewrite orb_true_r in Hguard.
    discriminate. }
  destruct (if ret_available self then _ else _) as [[docs texts] w1].
  destruct (match tao self with Some _ => _ | None => _ end) as [cfg w2].
  destruct (gen_available self) eqn:Hgen; cbn [negb]; [|reflexivity].
  destruct Hcase as [?|Hnone]; [discriminate|].
  destruct (match generate_explanation text texts cfg w2 with
            | (Ok out, w) => _
            | (Raise e, w) => _
            end) as [out w3].
  rewrite Hnone. reflexivity.
Qed.

(** X19, witness: one update on the full pipeline of the examples. *)
Lemma analyze_updates_optimizer_witness :
  exists t' : TAOOptimizer,
    tao (snd (fst (@analyze world Example.sample_sources Example.unit_embedder
                     Example.lcg_random Example.ticking_clock
                     (Example.scripted_model "true") Example.example_pylib
                     Example.full_pipeline "The Earth is flat." world0)))
    = Some t'
    /\ updates (stats t') = 1%Z.
Proof.
  destruct (@analyze_updates_optimizer world Example.sample_sources
              Example.unit_embedder Example.lcg_random Example.ticking_clock
              (Example.scripted_model "true") Example.example_pylib
              Example.full_pipeline "The Earth is flat." world0) as [H _].
  destruct (H {| model_name := "google/flan-t5-base";
                 stats := {| steps := 0; updates := 0; loss := 0.0 |};
                 last_update := 999 |}) as (t' & Hself & Hu & _).
  - vm_compute. discriminate.
  - reflexivity.
  - reflexivity.
  - exists t'. rewrite Hself. split; [reflexivity | exact Hu].
Defined.

Lemma analyze_all_tao
    {W : Type} {ES : EvidenceSources W} {EM : Embedder}
    {RM : RandomModule W} {CK : Clock W}
    {GM : GenerationModel W} {PL : PyLib}
    (texts : list string) :
  forall (self : RAGPipeline) (t : TAOOptimizer) (w : W),
    gen_available self = true ->
    tao self = Some t ->
    Forall (fun text => PyStr.strip text <> "") texts ->
    exists t' : TAOOptimizer,
      tao (fst (analyze_all self texts w)) = Some t'
      /\ updates (stats t')
         = (updates (stats t) + Z.of_nat (length texts))%Z
      /\ steps (stats t') = (steps (stats t) + Z.of_nat (length texts))%Z
      /\ (texts <> [] ->
          loss (stats t')
          = loss_curve (updates (stats t) + Z.of_nat (length texts))).
Proof.
  induction texts as [|text rest IH]; intros self t w Hgen Ht Hall.
  - exists t. cbn [analyze_all fst length Z.of_nat].
    split; [exact Ht|]. split; [lia|]. split; [lia | congruence].
  - apply Forall_cons_1 in Hall as [Hne Hrest].
    destruct (analyze_tao_step self t text w Hne Hgen Ht)
      as (t1 & Hself & Hu & Hs & Hl).
    cbn [analyze_all].
    destruct (analyze self text w) as [[out self1] w1].
    cbn [fst snd] in Hself. subst self1.
    destruct (IH {| ret_available := ret_available self;
                    gen_available := gen_available self;
                    tao := Some t1 |} t1 w1 Hgen eq_refl Hrest)
      as (t' & Ht' & Hu' & Hs' & Hl').
    exists t'. split; [exact Ht'|].
    split; [rewrite Hu', Hu; cbn [length]; lia|].
    split; [rewrite Hs', Hs; cbn [length]; lia|].
    intros _. destruct rest as [|text' rest'].
    + cbn in Ht'. injection Ht' as <-. rewrite Hl. reflexivity.
    + rewrite Hl' by discriminate. rewrite Hu. f_equal. cbn [length]. lia.
Qed.

(** X20: the optimizer counts the analyses.  After [analyze] has run on n
    non-blank inputs, one after the other on a pipeline with a generator
    and a freshly constructed optimizer, [updates] and [steps] are n and,
    for n >= 1, the loss is max(0.01, 0.5 - 0.05 * n), whatever the inputs,
    the evidence and the answers of the model were. *)
Theorem analyze_all_counts
    {W : Type} {ES : EvidenceSources W} {EM : Embedder}
    {RM : RandomModule W} {CK : Clock W}
    {GM : GenerationModel W} {PL : PyLib}
    (self : RAGPipeline) (name : option string) (w0 w : W)
    (texts : list string) :
  gen_available self = true ->
  tao self = Some (fresh_optimizer name w0) ->
  Forall (fun text => PyStr.strip text <> "") texts ->
  exists t' : TAOOptimizer,
    tao (fst (analyze_all self texts w)) = Some t'
    /\ updates (stats t') = Z.of_nat (length texts)
    /\ steps (stats t') = Z.of_nat (length texts)
    /\ (texts <> [] ->
        loss (stats t') = loss_curve (Z.of_nat (length texts))).
Proof.
  intros Hgen Ht Hall.
  destruct (analyze_all_tao texts self _ w Hgen Ht Hall)
    as (t' & Ht' & Hu & Hs & Hl).
  assert (Hfresh : updates (stats (fresh_optimizer name w0)) = 0%Z
                   /\ steps (stats (fresh_optimizer name w0)) = 0%Z).
  { unfold fresh_optimizer, TAOOptimizer_init.
    destruct (time_time w0) as [now w1]. by cbn. }
  destruct Hfresh as [Hu0 Hs0].
  rewrite Hu0 in Hu, Hl. rewrite Hs0 in Hs. cbn [Z.add] in *.
  exists t'. auto.
Qed.

(** X20, witness: two analyses, the second with a blank-free claim that
    fires a correction rule. *)
Lemma analyze_all_counts_witness :
  let self :=
    {| ret_available := true; gen_available := true;
       tao := Some (@fresh_optimizer world Example.ticking_clock None world0) |} in
  exists t' : TAOOptimizer,
    tao (fst (@analyze_all world Example.sample_sources Example.unit_embedder
                Example.lcg_random Example.ticking_clock
                (Example.scripted_model "true") Example.example_pylib
                self ["The Earth is flat."; "Water is wet."] world0))
    = Some t'
    /\ updates (stats t') = 2%Z.
Proof.
  cbv zeta.
  destruct (@analyze_all_counts world Example.sample_sources
              Example.unit_embedder Example.lcg_random Example.ticking_clock
              (Example.scripted_model "true") Example.example_pylib
              {| ret_available := true; gen_available := true;
                 tao := Some (@fresh_optimizer world Example.ticking_clock
                                None world0) |}
              None world0 world0 ["The Earth is flat."; "Water is wet."])
    as (t' & Ht' & Hu & _).
  - reflexivity.
  - reflexivity.
  - repeat constructor; vm_compute; discriminate.
  - exists t'. split; [exact Ht' | exact Hu].
Defined.

(* ================================================================== *)
(** ** Properties of the source adapters of src/live_retriever.py *)
(* ================================================================== *)

Lemma wikipedia_summaries_results
    {W : Type} {WL : WikipediaLib W} (titles : list string) :
  forall w : W,
    let results := fst (Adapters.wikipedia_summaries titles w) in
    map ev_source results `sublist_of` map wikipedia_url titles
    /\ Forall (fun e => ev_score e = None) results
    /\ ((forall title (w0 : W),
            exists summary w0', wikipedia_summary title 2 w0 = (Ok summary, w0')) ->
        map ev_source results = map wikipedia_url titles).
Proof.
  induction titles as [|title rest IH]; intros w; cbv zeta.
  - cbn. repeat split; constructor.
  - cbn [Adapters.wikipedia_summaries map].
    destruct (wikipedia_summary title 2 w) as [[summary|e] w1] eqn:Hsum.
    + destruct (IH w1) as (Hsub & Hnone & Hall). cbv zeta in *.
      destruct (Adapters.wikipedia_summaries rest w1) as [results w2].
      cbn [fst map ev_source] in *.
      split; [by apply sublist_skip|]. split; [by constructor|].
      intros Hok. by rewrite (Hall Hok).
    + destruct (IH w1) as (Hsub & Hnone & Hall). cbv zeta in *.
      split; [by apply sublist_cons|]. split; [exact Hnone|].
      intros Hok. destruct (Hok title w) as (s & w0' & Hs). congruence.
Qed.

Lemma wikipedia_summaries_calls
    {W : Type} {WL : WikipediaLib W} (titles : list string) :
  forall w : W,
    map fst (fst (summary_calls titles w)) = titles
    /\ Adapters.wikipedia_summaries titles w
       = (omap kept_summary (fst (summary_calls titles w)),
          snd (summary_calls titles w)).
Proof.
  induction titles as [|title rest IH]; intros w; [done|].
  cbn [summary_calls Adapters.wikipedia_summaries].
  destruct (wikipedia_summary title 2 w) as [r w1].
  destruct (IH w1) as [Hm Heq]. rewrite Heq.
  destruct (summary_calls rest w1) as [calls w2].
  cbn [fst snd map] in *. rewrite Hm. split; [reflexivity|].
  destruct r; reflexivity.
Qed.

Lemma wikipedia_summaries_pages
    {W : Type} {WL : WikipediaLib W} (page : string -> option string)
    (titles : list string) :
  summaries_follow page ->
  forall w : W,
    fst (Adapters.wikipedia_summaries titles w) = omap (page_summary page) titles.
Proof.
  intros Hpage. induction titles as [|title rest IH]; intros w; [done|].
  cbn [Adapters.wikipedia_summaries omap list_omap].
  specialize (Hpage title w). unfold page_summary at 1.
  destruct (wikipedia_summary title 2 w) as [r w1]. cbn [fst] in Hpage.
  destruct (page title) as [summary|].
  - subst r. specialize (IH w1).
    destruct (Adapters.wikipedia_summaries rest w1) as [results w2].
    cbn [fst] in *. subst results. reflexivity.
  - destruct Hpage as [e ->]. apply IH.
Qed.

(** X21: the encyclopedic adapter isolates failures title by title.  When
    the title search raises, the adapter answers with the empty list.
    Otherwise a summary is asked for every title found, in order, also after
    a summary that raised, and the answers are exactly the titles whose
    summary was given, in that order, each with its page address as source,
    its summary as text and no score: a title whose summary raises is left
    out and all the others are kept.  For an encyclopedia whose answers do
    not change, the answers are the titles that have a page.  When every
    summary can be fetched there is one answer per title. *)
Theorem wikipedia_search_isolates_failures
    {W : Type} {WL : WikipediaLib W} (query : string) (top_k : Z) (w : W) :
  let results := fst (Adapters._wikipedia_search query top_k w) in
  (forall e w1, wikipedia_search query top_k w = (Raise e, w1) -> results = [])
  /\ (forall titles w1,
        wikipedia_search query top_k w = (Ok titles, w1) ->
        let calls := fst (summary_calls titles w1) in
        map fst calls = titles
        /\ results = omap kept_summary calls
        /\ (forall page : string -> option string,
              summaries_follow page ->
              results = omap (page_summary page) titles)
        /\ map ev_source results `sublist_of` map wikipedia_url titles
        /\ (length results <= length titles)%nat
        /\ Forall (fun e => ev_score e = None) results
        /\ ((forall title (w0 : W),
                exists summary w0',
                  wikipedia_summary title 2 w0 = (Ok summary, w0')) ->
            map ev_source results = map wikipedia_url titles)).
Proof.
  cbv zeta. unfold Adapters._wikipedia_search. split.
  - intros e w1 ->. reflexivity.
  - intros titles w1 ->.
    destruct (wikipedia_summaries_calls titles w1) as [Hcalls Heq].
    destruct (wikipedia_summaries_results titles w1) as (Hsub & Hnone & Hall).
    cbv zeta in *.
    split; [exact Hcalls|]. split; [by rewrite Heq|].
    split; [intros page Hpage; by apply wikipedia_summaries_pages|].
    split; [exact Hsub|]. split; [|split; assumption].
    apply sublist_length in Hsub. by rewrite !length_map in Hsub.
Qed.

(** X21, witness: two titles found, the first without a page; the second is
    kept. *)
Lemma wikipedia_search_isolates_failures_witness :
  fst (@Adapters._wikipedia_search world Example.gappy_wikipedia
         "flat earth" 2 world0)
  = [summary_item "Flat Earth" "About Flat Earth"].
Proof.
  destruct (@wikipedia_search_isolates_failures world Example.gappy_wikipedia
              "flat earth" 2 world0) as [_ H].
  destruct (H ["Missing page"; "Flat Earth"]
              (log_event (EvWikipedia "flat earth" 2) world0) eq_refl)
    as (_ & _ & Hpage & _).
  rewrite (Hpage Example.pages); [reflexivity|].
  intros title w. unfold Example.pages. cbn.
  destruct (String.eqb title "Missing page"); eauto.
Defined.

Lemma contains_space_cons (c : ascii) (s : string) :
  PyStr.contains " " (String c s)
  = Ascii.eqb " " c || PyStr.contains " " s.
Proof.
  cbn [PyStr.contains String.prefix].
  destruct (ascii_dec " " c) as [<-|Hne].
  - rewrite Ascii.eqb_refl. by destruct s.
  - rewrite (proj2 (Ascii.eqb_neq _ _) Hne). reflexivity.
Qed.

Lemma contains_space_app (a b : string) :
  PyStr.contains " " (a +:+ b)
  = PyStr.contains " " a || PyStr.contains " " b.
Proof.
  induction a as [|c a IH].
  - cbn [String.append]. destruct b; reflexivity.
  - change (String c a +:+ b) with (String c (a +:+ b)).
    rewrite !contains_space_cons, IH. apply orb_assoc.
Qed.

Lemma replace_space_no_space (s : string) :
  PyStr.contains " " (replace_char " " "_" s) = false.
Proof.
  induction s as [|c s IH]; [reflexivity|].
  cbn [replace_char]. destruct (Ascii.eqb c " ") eqn:Hc.
  - rewrite contains_space_app, IH. reflexivity.
  - rewrite contains_space_cons, IH.
    rewrite Ascii.eqb_sym, Hc. reflexivity.
Qed.

(** X22: the source of an encyclopedic answer is a well-formed page
    address: it starts with https://en.wikipedia.org/wiki/ and contains no
    space, whatever the title. *)
Theorem wikipedia_url_well_formed (title : string) :
  PyStr.startswith "https://en.wikipedia.org/wiki/" (wikipedia_url title) = true
  /\ PyStr.contains " " (wikipedia_url title) = false.
Proof.
  unfold wikipedia_url. split.
  - unfold PyStr.startswith.
    generalize (replace_char " " "_" title). intros s.
    cbn. repeat (rewrite ?Ascii.eqb_refl; cbn). by destruct s.
  - rewrite contains_space_app, replace_space_no_space. reflexivity.
Qed.




Lemma rmap_raise {A B} (f : A -> result B) (l : list A) (a : A) (e : exn) :
  In a l -> f a = Raise e -> exists e', rmap f l = Raise e'.
Proof.
  induction l as [|x r IH]; intros Hin Ha; [destruct Hin|].
  cbn [rmap]. destruct Hin as [->|Hin].
  - rewrite Ha. cbn. eauto.
  - destruct (f x) as [y|ex]; cbn [rbind]; [|eauto].
    destruct (IH Hin Ha) as [e' ->]. cbn. eauto.
Qed.



Lemma malformed_article_raises (a : pyval) :
  malformed_article a -> exists e, news_article a = Raise e.
Proof.
  intros (d & field & v & -> & Hfield & Hv & Hnot).
  unfold news_article. cbn [as_dict rbind]. unfold dict_get.
  destruct Hfield as [-> | ->].
  - rewrite Hv. destruct v; cbn; eauto. by destruct (Hnot s).
  - destruct (str_add _ (PStr ". ")) as [t|e]; cbn [rbind]; [|eauto].
    rewrite Hv. destruct v; cbn; eauto. by destruct (Hnot s).
Qed.

(** X24: the news adapter is all or nothing.  Without a key it answers with
    the empty list and sends no request (the world is as before); when the
    request raises it answers with the empty list; and when one article of
    the response has a title or a description that is not a string, a
    [null] description for instance, the answers built from all the other
    articles are lost too. *)
Theorem newsapi_all_or_nothing
    {W : Type} {NL : NewsApiLib W} (query : string) (top_k : Z) (w : W) :
  (NEWSAPI_KEY = "" -> Adapters._newsapi_search query top_k w = ([], w))
  /\ (forall e w1,
        requests_get_json "https://newsapi.org/v2/everything"
          (Adapters.newsapi_params query top_k) 8 w = (Raise e, w1) ->
        fst (Adapters._newsapi_search query top_k w) = [])
  /\ (forall (body : dict) (articles : list pyval) (a : pyval) w1,
        requests_get_json "https://newsapi.org/v2/everything"
          (Adapters.newsapi_params query top_k) 8 w = (Ok (PDict body), w1) ->
        body !! "articles" = Some (PList articles) ->
        In a articles -> malformed_article a ->
        fst (Adapters._newsapi_search query top_k w) = []).
Proof.
  unfold Adapters._newsapi_search. split; [|split].
  - intros ->. reflexivity.
  - intros e w1 ->. by destruct (negb _).
  - intros body articles a w1 -> Harticles Hin Hbad.
    destruct (negb _); [reflexivity|]. cbn [fst as_dict rbind].
    unfold dict_get. rewrite Harticles. cbn [news_articles].
    destruct (malformed_article_raises a Hbad) as [e He].
    destruct (rmap_raise news_article articles a e Hin He) as [e' ->].
    reflexivity.
Qed.

(** X24, witness: two articles, the second with a [null] description. *)
Lemma newsapi_all_or_nothing_witness :
  fst (@Adapters._newsapi_search world
         (Example.scripted_newsapi "secret" Example.news_body)
         "earth" 3 world0) = [].
Proof.
  destruct (@newsapi_all_or_nothing world
              (Example.scripted_newsapi "secret" Example.news_body)
              "earth" 3 world0) as (_ & _ & H).
  eapply H.
  - reflexivity.
  - unfold Example.news_body. apply lookup_insert_eq.
  - right. left. reflexivity.
  - unfold malformed_article, Example.article.
    eexists _, "description", PNone.
    split; [reflexivity|]. split; [by right|].
    split; [by simplify_map_eq | discriminate].
Defined.




(** X26: the local-index adapter loses everything on one bad row.  Without
    index or table it answers with the empty list; and when the index
    returns a row number that the column "text" of the table does not have
    (FAISS pads its answer with -1 when it is asked for more neighbours than
    it holds), the adapter answers with the empty list: the hits on rows
    that do exist are lost too. *)
Theorem search_faiss_bad_row
    {FL : FaissLib} {EM : Embedder}
    (self : LiveRetriever) (query : string) (top_k : Z) :
  (index self = None \/ meta self = None ->
   Adapters._search_faiss self query top_k = [])
  /\ (forall idx (m : faiss_meta) emb hits (column : gmap Z pyval) (hit : Z * Q),
        index self = Some idx ->
        meta self = Some m ->
        encode query = Ok emb ->
        index_search idx (normalize_L2 emb) top_k = Ok hits ->
        m !! "text" = Some column ->
        In hit hits ->
        column !! fst hit = None ->
        Adapters._search_faiss self query top_k = []).
Proof.
  unfold Adapters._search_faiss. split.
  - intros [-> | ->]; [reflexivity|]. by destruct (index self).
  - intros idx m emb hits column hit -> -> -> Hhits Htext Hin Hrow.
    cbn [rbind]. rewrite Hhits. cbn [rbind].
    assert (Hbad : exists e, Adapters.faiss_hit m hit = Raise e).
    { unfold Adapters.faiss_hit.
      destruct (Adapters.faiss_source m) as [source|e]; cbn [rbind]; [|eauto].
      unfold Adapters.faiss_text. rewrite Htext, Hrow. cbn. eauto. }
    destruct Hbad as [e He].
    destruct (rmap_raise _ hits hit e Hin He) as [e' ->]. reflexivity.
Qed.

(** X26, witness: six neighbours asked of the three demonstration documents:
    three rows and three times -1. *)
Lemma search_faiss_bad_row_witness :
  @Adapters._search_faiss (Example.scripted_faiss Example.padded_hits)
    Example.unit_embedder
    (Example.demo_retriever Example.padded_hits) "moon landing" 6 = [].
Proof.
  eapply (proj2 (@search_faiss_bad_row
                   (Example.scripted_faiss Example.padded_hits)
                   Example.unit_embedder
                   (Example.demo_retriever Example.padded_hits)
                   "moon landing" 6)).
  - reflexivity.
  - reflexivity.
  - reflexivity.
  - reflexivity.
  - unfold Example.demo_meta. rewrite lookup_insert_ne by done.
    apply lookup_insert_eq.
  - right. right. right. left. reflexivity.
  - vm_compute. reflexivity.
Defined.
